(** * Clothing Store API: a shallow embedding of [main.py]

    The request handlers of [main.py] are translated to Rocq functions over
    an explicit model of Python values, dictionaries, exceptions and the
    document store.  Dictionaries with string keys are finite maps, the
    process-wide store handle [db] is an [option] (Python's [None] when the
    store is not configured), and a handler that can raise returns a
    [result]. *)

From Stdlib Require Import QArith Ascii String.
From Stdlib Require OrdersEx.
From stdpp Require Import gmap strings list fin_maps sorting pretty.

Local Open Scope string_scope.
Local Open Scope list_scope.

(** ** Opaque identifiers (bson's [ObjectId]) *)

(** An [ObjectId] wraps the raw bytes of the identifier (twelve of them for
    an identifier assigned by the store). *)
Record ObjectId := mkObjectId { oid_binary : list ascii }.

#[global] Instance ObjectId_eq_dec : EqDecision ObjectId.
Proof. solve_decision. Defined.

(** One hexadecimal digit for a nibble, lower case as [binascii.hexlify]
    prints it.  The nibble is given most significant bit first. *)
Definition hex_digit (b3 b2 b1 b0 : bool) : ascii :=
  match b3, b2, b1, b0 with
  | false, false, false, false => "0"
  | false, false, false, true => "1"
  | false, false, true, false => "2"
  | false, false, true, true => "3"
  | false, true, false, false => "4"
  | false, true, false, true => "5"
  | false, true, true, false => "6"
  | false, true, true, true => "7"
  | true, false, false, false => "8"
  | true, false, false, true => "9"
  | true, false, true, false => "a"
  | true, false, true, true => "b"
  | true, true, false, false => "c"
  | true, true, false, true => "d"
  | true, true, true, false => "e"
  | true, true, true, true => "f"
  end%char.

(** The value of a hexadecimal digit, in either case; [None] for any other
    character. *)
Definition hex_value (c : ascii) : option (bool * bool * bool * bool) :=
  match c with
  | "0" => Some (false, false, false, false)
  | "1" => Some (false, false, false, true)
  | "2" => Some (false, false, true, false)
  | "3" => Some (false, false, true, true)
  | "4" => Some (false, true, false, false)
  | "5" => Some (false, true, false, true)
  | "6" => Some (false, true, true, false)
  | "7" => Some (false, true, true, true)
  | "8" => Some (true, false, false, false)
  | "9" => Some (true, false, false, true)
  | "a" | "A" => Some (true, false, true, false)
  | "b" | "B" => Some (true, false, true, true)
  | "c" | "C" => Some (true, true, false, false)
  | "d" | "D" => Some (true, true, false, true)
  | "e" | "E" => Some (true, true, true, false)
  | "f" | "F" => Some (true, true, true, true)
  | _ => None
  end%char.

(** [bytes.hex()]: two digits per byte, high nibble first. *)
Fixpoint hexlify (bs : list ascii) : string :=
  match bs with
  | [] => ""
  | Ascii b0 b1 b2 b3 b4 b5 b6 b7 :: bs' =>
      String (hex_digit b7 b6 b5 b4) (String (hex_digit b3 b2 b1 b0) (hexlify bs'))
  end.

(** ASCII white space, which [bytes.fromhex] skips between bytes. *)
Definition is_ascii_space (c : ascii) : bool :=
  match c with
  | " " | "009" | "010" | "011" | "012" | "013" => true
  | _ => false
  end%char.

(** [bytes.fromhex(s)]: [None] stands for the [ValueError] it raises. *)
Fixpoint fromhex (s : string) : option (list ascii) :=
  match s with
  | "" => Some []
  | String c s' =>
      if is_ascii_space c then fromhex s'
      else
        match s' with
        | "" => None
        | String c' s'' =>
            match hex_value c, hex_value c' with
            | Some (b7, b6, b5, b4), Some (b3, b2, b1, b0) =>
                cons (Ascii b0 b1 b2 b3 b4 b5 b6 b7) <$> fromhex s''
            | _, _ => None
            end
        end
  end.

(** ** Python values *)

(** The scalar values that occur in stored documents, request payloads and
    responses.  Floats are modelled by rationals. *)
Inductive pyval :=
  | VNone
  | VBool (b : bool)
  | VInt (n : Z)
  | VNum (q : Q)
  | VStr (s : string)
  | VOid (o : ObjectId).

#[global] Instance Q_eq_dec : EqDecision Q.
Proof. solve_decision. Defined.

#[global] Instance pyval_eq_dec : EqDecision pyval.
Proof. solve_decision. Defined.

(** A Python [dict] with string keys. *)
Abbreviation pydict := (gmap string pyval).

(** [isinstance(v, ObjectId)] *)
Definition is_ObjectId (v : pyval) : bool :=
  match v with VOid _ => true | _ => false end.

(** Truth value of a Python object, as tested by [if v] and [not v]. *)
Definition truthy (v : pyval) : bool :=
  match v with
  | VNone => false
  | VBool b => b
  | VInt n => negb (n =? 0)%Z
  | VNum q => negb (Qeq_bool q 0)
  | VStr s => negb (String.eqb s "")
  | VOid _ => true
  end.

(** ** Exceptions *)

(** The exceptions the handlers meet.  Every one of them, FastAPI's
    [HTTPException] included, derives from Python's [Exception], so an
    [except Exception] clause catches them all. *)
Inductive exn_class :=
  | InvalidId
  | TypeError
  | ValidationError
  | DuplicateKeyError
  | Exception_.

Inductive exn :=
  | HTTPException (status_code : Z) (detail : string)
  | Error (cls : exn_class) (message : string).

(** [str(e)] for an exception [e]. *)
Definition exn_str (e : exn) : string :=
  match e with
  | HTTPException status_code detail => pretty status_code +:+ ": " +:+ detail
  | Error _ message => message
  end.

Inductive result (A : Type) :=
  | Ok (a : A)
  | Raise (e : exn).
Arguments Ok {A} a.
Arguments Raise {A} e.

#[global] Instance exn_class_eq_dec : EqDecision exn_class.
Proof. solve_decision. Defined.

#[global] Instance exn_eq_dec : EqDecision exn.
Proof. solve_decision. Defined.

#[global] Instance result_eq_dec `{EqDecision A} : EqDecision (result A).
Proof. solve_decision. Defined.

Definition bind {A B} (r : result A) (k : A -> result B) : result B :=
  match r with
  | Ok a => k a
  | Raise e => Raise e
  end.

Declare Scope py_scope.
Delimit Scope py_scope with py.
Notation "x <~ c ;; k" := (bind c (fun x => k))
  (at level 100, c at next level, right associativity) : py_scope.
Local Open Scope py_scope.

(** [try: body except Exception as e: handler(e)] *)
Definition try_except {A} (body : result A) (handler : exn -> result A) : result A :=
  match body with
  | Ok a => Ok a
  | Raise e => handler e
  end.

(** [ObjectId(s)] for a [str] argument: the string must have 24 characters
    and be accepted by [bytes.fromhex], else [InvalidId] is raised. *)
Definition ObjectId_of_str (s : string) : result ObjectId :=
  if (String.length s =? 24)%nat then
    match fromhex s with
    | Some bs => Ok (mkObjectId bs)
    | None => Raise (Error InvalidId "not a valid ObjectId")
    end
  else Raise (Error InvalidId "not a valid ObjectId").

(** ** Ordering and [sorted] *)

(** The numeric value of a number or a boolean ([bool] is a subclass of
    [int]). *)
Definition as_number (v : pyval) : option Q :=
  match v with
  | VBool b => Some (if b then 1%Q else 0%Q)
  | VInt n => Some (inject_Z n)
  | VNum q => Some q
  | _ => None
  end.

(** [a < b].  Strings compare lexicographically by code point, numbers by
    value, identifiers by their bytes; any other pair raises [TypeError]. *)
Definition py_lt (a b : pyval) : result bool :=
  match a, b with
  | VStr s, VStr t => Ok (String.ltb s t)
  | VOid o, VOid p =>
      Ok (String.ltb (string_of_list_ascii (oid_binary o))
                     (string_of_list_ascii (oid_binary p)))
  | _, _ =>
      match as_number a, as_number b with
      | Some x, Some y => Ok (negb (Qle_bool y x))
      | _, _ => Raise (Error TypeError "'<' not supported between instances")
      end
  end.

(** Insertion of [x] in front of the first element that is not below it. *)
Fixpoint insert_sorted (x : pyval) (l : list pyval) : result (list pyval) :=
  match l with
  | [] => Ok [x]
  | y :: l' =>
      below <~ py_lt y x ;;
      if below : bool then (r <~ insert_sorted x l' ;; Ok (y :: r))
      else Ok (x :: y :: l')
  end.

(** [sorted(l)]: a stable ascending sort that only uses [<]. *)
Fixpoint sorted (l : list pyval) : result (list pyval) :=
  match l with
  | [] => Ok []
  | x :: l' => r <~ sorted l' ;; insert_sorted x r
  end.

(** ** The document store *)

(** A collection is the sequence of its documents in insertion order; a
    database maps collection names to collections. *)
Abbreviation collection := (list pydict).
Abbreviation database := (gmap string (list pydict)).

(** [db[name]]: a collection that was never written to is empty. *)
Definition db_getitem (h : database) (name : string) : list pydict :=
  default [] (h !! name).

(** A document matches an equality filter when it has every field of the
    filter with the same value; the empty filter matches every document. *)
Definition matches (query : pydict) (d : pydict) : Prop :=
  map_Forall (fun k v => d !! k = Some v) query.

#[global] Instance matches_dec query d : Decision (matches query d).
Proof. unfold matches. apply _. Defined.

(** [collection.find(query)] *)
Definition find (coll : list pydict) (query : pydict) : list pydict :=
  filter (matches query) coll.

(** [collection.find_one(query)]: the first match, or [None]. *)
Definition find_one (coll : list pydict) (query : pydict) : option pydict :=
  head (find coll query).

(** [collection.count_documents(query)] *)
Definition count_documents (coll : list pydict) (query : pydict) : Z :=
  Z.of_nat (length (find coll query)).

(** [collection.distinct(field)]: the values of [field] over the documents
    that have it, each value once. *)
Definition distinct (coll : list pydict) (field : string) : list pyval :=
  remove_dups (omap (fun d : pydict => d !! field) coll).

(** [collection.insert_one(doc)]: a document without [_id] gets the
    identifier [new_id] generated for it; the identifier must be unused in
    the collection.  The result is the document's [_id] and the collection
    after the call. *)
Definition insert_one (new_id : ObjectId) (doc : pydict) (coll : list pydict)
  : result pyval * list pydict :=
  let doc' := match doc !! "_id" with
              | Some _ => doc
              | None => <["_id" := VOid new_id]> doc
              end in
  let id := default VNone (doc' !! "_id") in
  match find_one coll {["_id" := id]} with
  | Some _ => (Raise (Error DuplicateKeyError "E11000 duplicate key error"), coll)
  | None => (Ok id, coll ++ [doc'])
  end.

(** [collection.insert_many(docs)], ordered: the documents are inserted one
    after the other, the [i]-th generated identifier being [new_ids i], and
    the first failure stops the batch. *)
Fixpoint insert_many (new_ids : nat -> ObjectId) (i : nat) (docs : list pydict)
    (coll : list pydict) : result (list pyval) * list pydict :=
  match docs with
  | [] => (Ok [], coll)
  | d :: ds =>
      match insert_one (new_ids i) d coll with
      | (Ok id, coll') =>
          let '(r, coll'') := insert_many new_ids (S i) ds coll' in
          (ids <~ r ;; Ok (id :: ids), coll'')
      | (Raise e, coll') => (Raise e, coll')
      end
  end.

(** ** The product schema ([schemas.Product]) *)

Module ProductSchema.

(** Modelled from the spec: the [Product] model of [schemas.py], which is
    not part of the sources at hand.  Section 3 of the specification gives
    its fields: [title], [price] and [category] are required, [description]
    and [image] are optional texts, [in_stock] is a boolean. *)
Record t := mk {
  title : string;
  description : option string;
  price : Q;
  category : string;
  in_stock : bool;
  image : option string
}.

Definition validation_error {A} (msg : string) : result A :=
  Raise (Error ValidationError msg).

(** A required text field: present, a string, and not empty. *)
Definition required_text (payload : pydict) (k : string) : result string :=
  match payload !! k with
  | Some (VStr s) =>
      if String.eqb s "" then validation_error "String should not be empty"
      else Ok s
  | Some _ => validation_error "Input should be a valid string"
  | None => validation_error "Field required"
  end.

(** The required price: a JSON number, integral or not, that is at least 0. *)
Definition required_price (payload : pydict) : result Q :=
  match payload !! "price" with
  | Some (VNum q) =>
      if Qle_bool 0 q then Ok q
      else validation_error "Input should be greater than or equal to 0"
  | Some (VInt n) =>
      if (0 <=? n)%Z then Ok (inject_Z n)
      else validation_error "Input should be greater than or equal to 0"
  | Some _ => validation_error "Input should be a valid number"
  | None => validation_error "Field required"
  end.

(** An optional text field: absent, [null] or a string. *)
Definition optional_text (payload : pydict) (k : string) : result (option string) :=
  match payload !! k with
  | None | Some VNone => Ok None
  | Some (VStr s) => Ok (Some s)
  | Some _ => validation_error "Input should be a valid string"
  end.

(** The optional [in_stock] flag, [True] when omitted. *)
Definition optional_in_stock (payload : pydict) : result bool :=
  match payload !! "in_stock" with
  | None => Ok true
  | Some (VBool b) => Ok b
  | Some _ => validation_error "Input should be a valid boolean"
  end.

(** Modelled from the spec: [Parse] of section 4.1, the validation of a
    request payload against the schema, which [schemas.py] declares and the
    framework runs before the handler.  It checks the required fields
    ([title] non-empty, [price] at least 0, [category] non-empty), fills
    [in_stock] with [True] and leaves [image] absent when they are
    omitted, and fails with a validation error when a required field is
    missing or a field has the wrong type. *)
Definition Parse (payload : pydict) : result t :=
  title <~ required_text payload "title" ;;
  description <~ optional_text payload "description" ;;
  price <~ required_price payload ;;
  category <~ required_text payload "category" ;;
  in_stock <~ optional_in_stock payload ;;
  image <~ optional_text payload "image" ;;
  Ok (mk title description price category in_stock image).

Definition of_option (o : option string) : pyval :=
  match o with
  | Some s => VStr s
  | None => VNone
  end.

(** Modelled from the spec: [product.model_dump()], the validated fields
    as a dictionary.  An [image] that was not supplied is absent. *)
Definition model_dump (p : t) : pydict :=
  let data : pydict :=
    {[ "title" := VStr (title p);
       "description" := of_option (description p);
       "price" := VNum (price p);
       "category" := VStr (category p);
       "in_stock" := VBool (in_stock p) ]} in
  match image p with
  | Some url => <["image" := VStr url]> data
  | None => data
  end.

End ProductSchema.

(** ** The helpers of [database.py] *)

(** Modelled from the spec: [database.get_documents], which is not part of
    the sources at hand.  It is [Find] of section 4.2: all the documents of
    the collection that match the equality filter, every document for the
    empty filter, in the store's natural order.  Without a store the
    operation fails with a store-unavailable error (section 7). *)
Definition get_documents (collection_name : string) (filter_dict : pydict)
    (db : option database) : result (list pydict) :=
  match db with
  | None => Raise (Error Exception_ "Database not available")
  | Some h => Ok (find (db_getitem h collection_name) filter_dict)
  end.

(** Modelled from the spec: [database.create_document], which is not part of
    the sources at hand.  It is [Insert] of section 4.2: it persists one new
    record and returns the identifier assigned to it, an opaque value
    convertible to a string.  Writes fail without a store (section 6). *)
Definition create_document (new_id : ObjectId) (collection_name : string)
    (data : pydict) (db : option database) : result pyval * option database :=
  match db with
  | None => (Raise (Error Exception_ "Database not available"), None)
  | Some h =>
      let '(r, coll') := insert_one new_id data (db_getitem h collection_name) in
      (r, Some (<[collection_name := coll']> h))
  end.

(** ** Handlers that do not serialize documents *)

(** The outcome of a handler as an HTTP status: [success] when it returns,
    the status of an [HTTPException], 500 for any other exception. *)
Definition status {A} (success : Z) (r : result A) : Z :=
  match r with
  | Ok _ => success
  | Raise (HTTPException status_code _) => status_code
  | Raise (Error _ _) => 500
  end.

(** [create_product], the handler of [POST /api/products]. *)
Definition create_product (new_id : ObjectId) (product : ProductSchema.t)
    (db : option database) : result pydict * option database :=
  let data := ProductSchema.model_dump product in
  let data := match data !! "image" with
              | None => <["image" := VNone]> data
              | Some _ => data
              end in
  let '(r, db') := create_document new_id "product" data db in
  (try_except
     (inserted_id <~ r ;; Ok ({[ "id" := inserted_id ]} : pydict))
     (fun e => Raise (HTTPException 500 (exn_str e))),
   db').

(** [POST /api/products] as the framework runs it: the payload is validated
    against the schema first, a validation error is answered with status 422
    and the handler is not called. *)
Definition post_api_products (new_id : ObjectId) (payload : pydict)
    (db : option database) : result pydict * option database :=
  match ProductSchema.Parse payload with
  | Ok product => create_product new_id product db
  | Raise e => (Raise (HTTPException 422 (exn_str e)), db)
  end.

(** [list_categories], the handler of [GET /api/categories]. *)
Definition list_categories (db : option database) : result (list pyval) :=
  match db with
  | None => Ok []
  | Some h =>
      let cats := distinct (db_getitem h "product") "category" in
      sorted (filter (fun c => truthy c = true) cats)
  end.

(** The demo products of [seed_products]. *)
Definition demo : list pydict :=
  [ {[ "title" := VStr "Essential Tee";
       "description" := VStr "Ultra-soft cotton tee with a relaxed fit.";
       "price" := VNum 24;
       "category" := VStr "Tops";
       "in_stock" := VBool true;
       "image" := VStr "https://images.unsplash.com/photo-1520975922215-c994c6a8dffd?q=80&w=1200&auto=format&fit=crop" ]};
    {[ "title" := VStr "Everyday Hoodie";
       "description" := VStr "Cozy fleece hoodie for all-day comfort.";
       "price" := VNum 58;
       "category" := VStr "Hoodies";
       "in_stock" := VBool true;
       "image" := VStr "https://images.unsplash.com/photo-1521572163474-6864f9cf17ab?q=80&w=1200&auto=format&fit=crop" ]};
    {[ "title" := VStr "Slim Chinos";
       "description" := VStr "Tailored chinos with stretch for movement.";
       "price" := VNum 64;
       "category" := VStr "Bottoms";
       "in_stock" := VBool true;
       "image" := VStr "https://images.unsplash.com/photo-1520975916090-3105956dac38?q=80&w=1200&auto=format&fit=crop" ]};
    {[ "title" := VStr "Classic Denim Jacket";
       "description" := VStr "Timeless denim with a modern wash.";
       "price" := VNum 89;
       "category" := VStr "Outerwear";
       "in_stock" := VBool true;
       "image" := VStr "https://images.unsplash.com/photo-1520975693416-35b05b6cb4f2?q=80&w=1200&auto=format&fit=crop" ]};
    {[ "title" := VStr "Athletic Joggers";
       "description" := VStr "Lightweight joggers for lounge or gym.";
       "price" := VNum 49;
       "category" := VStr "Bottoms";
       "in_stock" := VBool true;
       "image" := VStr "https://images.unsplash.com/photo-1541099649105-f69ad21f3246?q=80&w=1200&auto=format&fit=crop" ]} ].

(** [seed_products], the handler of [POST /api/seed]. *)
Definition seed_products (new_ids : nat -> ObjectId) (db : option database)
  : result pydict * option database :=
  match db with
  | None => (Raise (HTTPException 500 "Database not available"), db)
  | Some h =>
      let count := count_documents (db_getitem h "product") ∅ in
      if (count >? 0)%Z then
        (Ok {[ "inserted" := VInt 0; "message" := VStr "Products already exist" ]}, db)
      else
        let '(r, coll') := insert_many new_ids 0 demo (db_getitem h "product") in
        (inserted <~ r ;; Ok {[ "inserted" := VInt (Z.of_nat (length inserted)) ]},
         Some (<["product" := coll']> h))
  end.

(** ** Serialization and the handlers that use it *)

Section Serialization.

(** Python's [str] on a float prints its shortest round-tripping decimal.
    The model of floats by rationals does not determine that text, so it
    is a parameter of the development. *)
Variable float_repr : Q -> string.

(** [str(v)] *)
Definition py_str (v : pyval) : string :=
  match v with
  | VNone => "None"
  | VBool true => "True"
  | VBool false => "False"
  | VInt n => pretty n
  | VNum q => float_repr q
  | VStr s => s
  | VOid o => hexlify (oid_binary o)
  end.

(** What the loop of [serialize_doc] does to one value. *)
Definition str_if_ObjectId (v : pyval) : pyval :=
  if is_ObjectId v then VStr (py_str v) else v.

(** One round of the loop of [serialize_doc]: [d[k] = str(v)] when [v] is
    an [ObjectId]. *)
Definition convert_item (d : pydict) (item : string * pyval) : pydict :=
  if is_ObjectId item.2 then <[item.1 := VStr (py_str item.2)]> d else d.

(** The body of [serialize_doc] for a non-empty dictionary. *)
Definition serialize_dict (doc : pydict) : pydict :=
  let d := doc in
  let d := match d !! "_id" with
           | Some v => <["id" := VStr (py_str v)]> (delete "_id" d)
           | None => d
           end in
  foldl convert_item d (map_to_list d).

(** [serialize_doc(doc)], where [doc] is a dictionary or [None]. *)
Definition serialize_doc (doc : option pydict) : option pydict :=
  match doc with
  | None => None
  | Some d => if decide (d = ∅) then Some d else Some (serialize_dict d)
  end.

(** [list_products], the handler of [GET /api/products]. *)
Definition list_products (category : option string) (db : option database)
  : result (list (option pydict)) :=
  let filter_q : pydict :=
    match category with
    | Some c => if truthy (VStr c) then {[ "category" := VStr c ]} else ∅
    | None => ∅
    end in
  docs <~ get_documents "product" filter_q db ;;
  Ok (map (fun d => serialize_doc (Some d)) docs).

(** [not doc] for a dictionary or [None]. *)
Definition not_doc (doc : option pydict) : bool :=
  match doc with
  | None => true
  | Some d => bool_decide (d = ∅)
  end.

(** [get_product], the handler of [GET /api/products/{product_id}].  A
    missing store makes [db["product"]] raise [TypeError]. *)
Definition get_product (product_id : string) (db : option database)
  : result (option pydict) :=
  try_except
    (coll <~ match db with
             | Some h => Ok (db_getitem h "product")
             | None => Raise (Error TypeError "'NoneType' object is not subscriptable")
             end ;;
     oid <~ ObjectId_of_str product_id ;;
     let doc := find_one coll {[ "_id" := VOid oid ]} in
     if not_doc doc then Raise (HTTPException 404 "Product not found")
     else Ok (serialize_doc doc))
    (fun _ => Raise (HTTPException 400 "Invalid product id")).

(** *** Dictionaries as objects

    [serialize_doc] once more, now with the dictionaries as mutable
    objects in a heap, so that what the function does to its argument
    can be stated.  A reference is an address; [None] is Python's
    [None]. *)

Definition deref (h : gmap positive pydict) (l : positive) : pydict :=
  default ∅ (h !! l).

(** [dict(doc)]: a new object with the items of [doc]. *)
Definition dict_copy (l : positive) (h : gmap positive pydict)
  : positive * gmap positive pydict :=
  let l' := fresh (dom h) in (l', <[l' := deref h l]> h).

(** [k in d] *)
Definition dict_contains (l : positive) (k : string) (h : gmap positive pydict) : bool :=
  bool_decide (is_Some (deref h l !! k)).

(** [d.pop(k)] for a key that is present. *)
Definition dict_pop (l : positive) (k : string) (h : gmap positive pydict)
  : pyval * gmap positive pydict :=
  (default VNone (deref h l !! k), <[l := delete k (deref h l)]> h).

(** [d[k] = v] *)
Definition dict_setitem (l : positive) (k : string) (v : pyval)
    (h : gmap positive pydict) : gmap positive pydict :=
  <[l := <[k := v]> (deref h l)]> h.

(** [list(d.items())] *)
Definition dict_items (l : positive) (h : gmap positive pydict) : list (string * pyval) :=
  map_to_list (deref h l).

(** One round of the loop, on the object at [d]. *)
Definition convert_item_at (d : positive) (h : gmap positive pydict)
    (item : string * pyval) : gmap positive pydict :=
  if is_ObjectId item.2 then dict_setitem d item.1 (VStr (py_str item.2)) h else h.

(** [serialize_doc(doc)] statement by statement: the test [not doc], the
    copy [d = dict(doc)], the renaming of [_id] on [d], the loop over
    [list(d.items())] that writes to [d], and [return d].  The result is
    the returned reference and the heap after the call. *)
Definition serialize_doc_heap (doc : option positive) (h : gmap positive pydict)
  : option positive * gmap positive pydict :=
  match doc with
  | None => (None, h)
  | Some l =>
      if decide (deref h l = ∅) then (Some l, h)
      else
        let '(d, h) := dict_copy l h in
        let h := if dict_contains d "_id" h then
                   let '(v, h) := dict_pop d "_id" h in
                   dict_setitem d "id" (VStr (py_str v)) h
                 else h in
        let h := foldl (convert_item_at d) h (dict_items d h) in
        (Some d, h)
  end.

End Serialization.

(** ** Vocabulary of the properties *)

(** The strict lexicographic order on strings. *)
Definition string_lt (a b : string) : Prop := String.ltb a b = true.

(** The string of a text value. *)
Definition text_of (v : pyval) : option string :=
  match v with
  | VStr s => Some s
  | _ => None
  end.

(** A document whose [category], when it has one, is a text. *)
Definition text_category (d : pydict) : Prop :=
  forall v, d !! "category" = Some v -> exists c, v = VStr c.

(** An identifier that no document of the collection has. *)
Definition unused (new_id : ObjectId) (coll : list pydict) : Prop :=
  forall d : pydict, d ∈ coll -> d !! "_id" <> Some (VOid new_id).

Definition is_text (v : pyval) : bool :=
  match v with VStr _ => true | _ => false end.
Definition is_number (v : pyval) : bool :=
  match v with VInt _ | VNum _ => true | _ => false end.
Definition is_text_or_null (v : pyval) : bool :=
  match v with VStr _ | VNone => true | _ => false end.
Definition is_boolean (v : pyval) : bool :=
  match v with VBool _ => true | _ => false end.

(** The type that each field of a product payload must have. *)
Definition field_types : list (string * (pyval -> bool)) :=
  [ ("title", is_text); ("description", is_text_or_null); ("price", is_number);
    ("category", is_text); ("in_stock", is_boolean); ("image", is_text_or_null) ].

(** A required field is missing. *)
Definition missing_required (payload : pydict) : Prop :=
  exists k, k ∈ ["title"; "price"; "category"] /\ payload !! k = None.

(** A field is present with a value of the wrong type. *)
Definition wrong_type (payload : pydict) : Prop :=
  exists k check v, (k, check) ∈ field_types /\ payload !! k = Some v /\ check v = false.

(** A required field breaks its constraint: an empty [title] or [category],
    a negative [price]. *)
Definition violates_constraint (payload : pydict) : Prop :=
  payload !! "title" = Some (VStr "") \/
  payload !! "category" = Some (VStr "") \/
  (exists v q, payload !! "price" = Some v /\ as_number v = Some q /\ (q < 0)%Q).

(** ** Sample data *)

(** A stand-in for Python's printing of floats, right on integral values. *)
Definition float_repr_sample (q : Q) : string :=
  pretty (Qnum q / Zpos (Qden q))%Z +:+ ".0".

(** Twelve-byte identifiers that differ in their last byte. *)
Definition sample_id (n : nat) : ObjectId :=
  mkObjectId (replicate 11 "000"%char ++ [ascii_of_nat n]).

(** A stored product, with a reference to another document. *)
Definition tee : pydict :=
  {[ "_id" := VOid (sample_id 1);
     "title" := VStr "Tee";
     "price" := VNum 10;
     "category" := VStr "Tops";
     "in_stock" := VBool true;
     "image" := VNone;
     "supplier" := VOid (sample_id 7) ]}.

Definition sample_store : database := {[ "product" := [tee] ]}.

Definition demo_store : database := {[ "product" := demo ]}.

(** The payload of the example of section 8, and the product it describes. *)
Definition tee_payload : pydict :=
  {[ "title" := VStr "Tee"; "price" := VInt 10; "category" := VStr "Tops" ]}.

Definition tee_product : ProductSchema.t :=
  ProductSchema.mk "Tee" None 10 "Tops" true None.

(** A payload without a title. *)
Definition untitled_payload : pydict :=
  {[ "price" := VInt 10; "category" := VStr "Tops" ]}.

(** ** The diagnostic handler *)

(** Whether a byte continues a UTF-8 character (its two top bits are 10).
    Strings are held as their UTF-8 bytes, so the characters that Python
    counts are the bytes that are not continuations. *)
Definition is_continuation (c : ascii) : bool :=
  match c with
  | Ascii _ _ _ _ _ _ b6 b7 => b7 && negb b6
  end.

(** [len(s)], in characters. *)
Fixpoint str_len (s : string) : nat :=
  match s with
  | "" => 0
  | String c s' => if is_continuation c then str_len s' else S (str_len s')
  end.

(** [s[:n]]: the first [n] characters of [s]. *)
Fixpoint str_prefix (n : nat) (s : string) : string :=
  match s with
  | "" => ""
  | String c s' =>
      if is_continuation c then String c (str_prefix n s')
      else
        match n with
        | 0 => ""
        | S n' => String c (str_prefix n' s')
        end
  end.

(** The values of the diagnostic response: [None], a string, or a list of
    collection names. *)
Inductive diag :=
  | DNone
  | DStr (s : string)
  | DNames (names : list string).

#[global] Instance diag_eq_dec : EqDecision diag.
Proof. solve_decision. Defined.

(** The truth value of [os.getenv(name)]: a variable that is set to a
    non-empty string. *)
Definition env_truthy (value : option string) : bool :=
  match value with
  | Some s => negb (String.eqb s "")
  | None => false
  end.

(** [test_database], the handler of [GET /test].  The process environment
    is [getenv], and [listing] is the answer of the store to
    [db.list_collection_names()], which can be an exception.  The response
    dictionary is updated in place, so each block of statements yields the
    dictionary it leaves and the exception that ended it, if any; the
    handler of the inner [try] sits where the listing fails, the handler of
    the outer [try] at the end. *)
Definition test_database (getenv : string -> option string) (db : option database)
    (listing : result (list string)) : gmap string diag :=
  let response : gmap string diag :=
    {[ "backend" := DStr "✅ Running";
       "database" := DStr "❌ Not Available";
       "database_url" := DNone;
       "database_name" := DNone;
       "connection_status" := DStr "Not Connected";
       "collections" := DNames [] ]} in
  let '(response, raised) :=
    match db with
    | Some _ =>
        let response := <["database" := DStr "✅ Available"]> response in
        let response :=
          <["database_url" :=
              DStr (if env_truthy (getenv "DATABASE_URL") then "✅ Set" else "❌ Not Set")]>
            response in
        let response :=
          <["database_name" :=
              DStr (if env_truthy (getenv "DATABASE_NAME") then "✅ Set" else "❌ Not Set")]>
            response in
        match listing with
        | Ok collections =>
            let response := <["collections" := DNames (take 10 collections)]> response in
            let response := <["database" := DStr "✅ Connected & Working"]> response in
            let response := <["connection_status" := DStr "Connected"]> response in
            (response, @None exn)
        | Raise e =>
            (<["database" :=
                 DStr ("⚠️  Connected but Error: " +:+ str_prefix 50 (exn_str e))]>
               response,
             None)
        end
    | None =>
        (<["database" := DStr "⚠️  Available but not initialized"]> response, None)
    end in
  match raised with
  | Some e => <["database" := DStr ("❌ Error: " +:+ str_prefix 50 (exn_str e))]> response
  | None => response
  end.

(** ** More vocabulary *)

(** The class of values a value can be compared with by [<]: texts,
    numbers (booleans included), identifiers.  [None] compares with
    nothing, itself included. *)
Inductive kind := KNone | KNumber | KText | KOid.

Definition kind_of (v : pyval) : kind :=
  match v with
  | VNone => KNone
  | VBool _ | VInt _ | VNum _ => KNumber
  | VStr _ => KText
  | VOid _ => KOid
  end.

(** The demo documents as the store holds them after seeding, the [i]-th
    with the identifier [new_ids i]. *)
Definition seeded (new_ids : nat -> ObjectId) : list pydict :=
  zip_with (fun j d => <["_id" := VOid (new_ids j)]> d) (seq 0 (length demo)) demo.

(** The demo store with its products in the opposite order. *)
Definition demo_store_reversed : database := {[ "product" := reverse demo ]}.

(** A product whose category is a number, and a store that holds it beside
    a product whose category is a text. *)
Definition cap : pydict := {[ "title" := VStr "Cap"; "category" := VInt 7 ]}.

Definition mixed_store : database := {[ "product" := [tee; cap] ]}.

(** An environment with the connection string but no database name. *)
Definition sample_env (name : string) : option string :=
  if String.eqb name "DATABASE_URL" then Some "mongodb://localhost:27017" else None.

(** * Properties *)

(** ** Serialization *)

Section SerializationFacts.

Variable float_repr : Q -> string.

Lemma foldl_convert_item_lookup (items : list (string * pyval)) (d : pydict) (k : string) :
  NoDup items.*1 ->
  foldl (convert_item float_repr) d items !! k =
    match (list_to_map items : pydict) !! k with
    | Some v => if is_ObjectId v then Some (VStr (py_str float_repr v)) else d !! k
    | None => d !! k
    end.
Proof.
  revert d. induction items as [|[k' v] items IH]; intros d Hnd; simpl.
  - by rewrite lookup_empty.
  - apply NoDup_cons in Hnd as [Hk' Hnd]. rewrite IH by done.
    destruct (decide (k' = k)) as [->|Hne].
    + rewrite lookup_insert_eq.
      rewrite (not_elem_of_list_to_map_1 (M:=gmap string) items k) by done.
      unfold convert_item; simpl. destruct (is_ObjectId v); [|done].
      by rewrite lookup_insert_eq.
    + rewrite lookup_insert_ne by done.
      assert (convert_item float_repr d (k', v) !! k = d !! k) as ->; [|done].
      unfold convert_item; simpl. destruct (is_ObjectId v); [|done].
      by rewrite lookup_insert_ne.
Qed.

(** The loop over a snapshot of the items maps [str_if_ObjectId] over the
    dictionary. *)
Lemma convert_items_fmap (d : pydict) :
  foldl (convert_item float_repr) d (map_to_list d) = str_if_ObjectId float_repr <$> d.
Proof.
  apply map_eq; intros k.
  rewrite foldl_convert_item_lookup by apply NoDup_fst_map_to_list.
  rewrite list_to_map_to_list, lookup_fmap. unfold str_if_ObjectId.
  destruct (d !! k) as [v|]; simpl; [|done]. by destruct (is_ObjectId v).
Qed.

Lemma serialize_dict_unfold (d : pydict) :
  serialize_dict float_repr d =
    str_if_ObjectId float_repr <$>
      match d !! "_id" with
      | Some v => <["id" := VStr (py_str float_repr v)]> (delete "_id" d)
      | None => d
      end.
Proof. unfold serialize_dict. apply convert_items_fmap. Qed.

Lemma serialize_dict_no__id (d : pydict) : serialize_dict float_repr d !! "_id" = None.
Proof.
  rewrite serialize_dict_unfold, lookup_fmap.
  destruct (d !! "_id") as [v|] eqn:Hid.
  - by rewrite lookup_insert_ne, lookup_delete_eq.
  - by rewrite Hid.
Qed.

Lemma serialize_dict_id (d : pydict) (v : pyval) :
  d !! "_id" = Some v ->
  serialize_dict float_repr d !! "id" = Some (VStr (py_str float_repr v)).
Proof.
  intros Hid. rewrite serialize_dict_unfold, lookup_fmap, Hid.
  by rewrite lookup_insert_eq.
Qed.

Lemma serialize_dict_other (d : pydict) (k : string) :
  k <> "_id" -> (k = "id" -> d !! "_id" = None) ->
  serialize_dict float_repr d !! k = str_if_ObjectId float_repr <$> d !! k.
Proof.
  intros Hk Hid. rewrite serialize_dict_unfold, lookup_fmap.
  destruct (d !! "_id") as [v|] eqn:Hv; [|done].
  assert (k <> "id") by (intros ->; by specialize (Hid eq_refl)).
  by rewrite lookup_insert_ne, lookup_delete_ne.
Qed.

(** C1. [serialize_doc] returns an empty or absent input as it is.  For a
    non-empty document the result has no [_id]; when the input has an
    [_id], the result's [id] is its string form; every other field (any
    key but [_id], and but [id] when it is the target of the renaming)
    that holds an [ObjectId] holds its string form in the result, every
    other field that holds another value is unchanged, and a key that is
    absent from the input is absent from the result. *)
Theorem serialize_doc_spec (doc : option pydict) :
  (not_doc doc = true -> serialize_doc float_repr doc = doc) /\
  (forall d : pydict, doc = Some d -> d <> ∅ ->
     exists d' : pydict,
       serialize_doc float_repr doc = Some d' /\
       d' !! "_id" = None /\
       (forall v, d !! "_id" = Some v -> d' !! "id" = Some (VStr (py_str float_repr v))) /\
       (forall k o, k <> "_id" -> (k = "id" -> d !! "_id" = None) ->
          d !! k = Some (VOid o) -> d' !! k = Some (VStr (hexlify (oid_binary o)))) /\
       (forall k v, k <> "_id" -> (k = "id" -> d !! "_id" = None) ->
          is_ObjectId v = false -> d !! k = Some v -> d' !! k = Some v) /\
       (forall k, (k = "id" -> d !! "_id" = None) -> d !! k = None -> d' !! k = None)).
Proof.
  split.
  - destruct doc as [d|]; simpl; [|done].
    intros Hd%bool_decide_eq_true. by rewrite decide_True.
  - intros d -> Hne. exists (serialize_dict float_repr d). simpl.
    rewrite decide_False by done.
    split; [done|]. split; [apply serialize_dict_no__id|].
    split; [apply serialize_dict_id|].
    split; [|split].
    + intros k o Hk Hid Hd. by rewrite serialize_dict_other, Hd.
    + intros k v Hk Hid Hv Hd. rewrite serialize_dict_other, Hd by done.
      simpl. unfold str_if_ObjectId. by rewrite Hv.
    + intros k Hid Hd. destruct (decide (k = "_id")) as [->|Hk].
      * apply serialize_dict_no__id.
      * by rewrite serialize_dict_other, Hd.
Qed.

End SerializationFacts.

(** ** The order on strings *)

Lemma string_compare_OT (a b : string) :
  String.compare a b = OrdersEx.String_as_OT.compare a b.
Proof. reflexivity. Qed.

Lemma string_lt_compare (a b : string) : string_lt a b <-> String.compare a b = Lt.
Proof.
  unfold string_lt, String.ltb. destruct (String.compare a b); split; congruence.
Qed.

Lemma string_lt_trans (a b c : string) : string_lt a b -> string_lt b c -> string_lt a c.
Proof.
  rewrite !string_lt_compare, !string_compare_OT.
  apply (@StrictOrder_Transitive _ _ OrdersEx.String_as_OT.lt_strorder).
Qed.

Lemma string_lt_irrefl (a : string) : ~ string_lt a a.
Proof.
  rewrite string_lt_compare, string_compare_OT.
  apply (@StrictOrder_Irreflexive _ _ OrdersEx.String_as_OT.lt_strorder).
Qed.

Lemma string_lt_total (a b : string) :
  String.ltb a b = false -> a <> b -> string_lt b a.
Proof.
  intros Hab Hne. apply string_lt_compare.
  unfold String.ltb in Hab. rewrite String.compare_antisym.
  destruct (String.compare a b) eqn:Hc; try done.
  by apply String.compare_eq_iff in Hc.
Qed.

(** ** [sorted] on texts *)

Lemma insert_sorted_texts (x : string) (l : list string) :
  StronglySorted string_lt l -> x ∉ l ->
  exists l' : list string,
    insert_sorted (VStr x) (VStr <$> l) = Ok (VStr <$> l') /\
    l' ≡ₚ x :: l /\ StronglySorted string_lt l'.
Proof.
  induction l as [|y l IH]; intros Hs Hx.
  - exists [x]. repeat split; [done|]. repeat constructor.
  - apply StronglySorted_inv in Hs as [Hs Hy].
    apply not_elem_of_cons in Hx as [Hxy Hx].
    rewrite fmap_cons. cbn [insert_sorted py_lt bind].
    destruct (String.ltb y x) eqn:Hyx.
    + destruct (IH Hs Hx) as (l' & Hins & Hp & Hs'). rewrite Hins. cbn [bind].
      exists (y :: l'). split; [done|]. split.
      * rewrite Hp. apply Permutation_swap.
      * constructor; [done|]. rewrite Hp. by constructor.
    + exists (x :: y :: l). split; [done|]. split; [done|].
      assert (string_lt x y) as Hlt by (apply string_lt_total; congruence).
      constructor; [by constructor|]. constructor; [done|].
      eapply Forall_impl; [exact Hy|]. intros z Hz. by eapply string_lt_trans.
Qed.

Lemma sorted_texts (l : list string) :
  NoDup l ->
  exists l' : list string,
    sorted (VStr <$> l) = Ok (VStr <$> l') /\ l' ≡ₚ l /\ StronglySorted string_lt l'.
Proof.
  induction l as [|x l IH]; intros Hnd.
  - exists []. repeat split; [done|]. constructor.
  - apply NoDup_cons in Hnd as [Hx Hnd].
    destruct (IH Hnd) as (l1 & Hsort & Hp & Hs).
    rewrite fmap_cons. cbn [sorted]. rewrite Hsort. cbn [bind].
    destruct (insert_sorted_texts x l1 Hs) as (l2 & Hins & Hp2 & Hs2).
    { by rewrite Hp. }
    exists l2. split; [done|]. split; [|done]. by rewrite Hp2, Hp.
Qed.

(** ** Categories *)

#[local] Instance VStr_inj : Inj (=) (=) VStr.
Proof. intros s t H. by injection H. Qed.

Lemma texts_fmap (l : list pyval) :
  Forall (fun v => exists c, v = VStr c) l -> l = VStr <$> omap text_of l.
Proof.
  induction 1 as [|v l [c ->] _ IH]; [done|]. simpl. f_equal. exact IH.
Qed.

Lemma elem_of_distinct (coll : list pydict) (field : string) (v : pyval) :
  v ∈ distinct coll field <-> exists d, d ∈ coll /\ d !! field = Some v.
Proof. unfold distinct. by rewrite elem_of_remove_dups, list_elem_of_omap. Qed.

Lemma truthy_text (c : string) : truthy (VStr c) = true <-> c <> "".
Proof.
  simpl. rewrite negb_true_iff. apply String.eqb_neq.
Qed.

(** C4. For a store whose documents have texts as categories,
    [GET /api/categories] returns a list of texts in strictly ascending
    lexicographic order, hence without duplicates, whose elements are
    exactly the non-empty category values of the stored documents. *)
Theorem list_categories_spec (h : database) :
  Forall text_category (db_getitem h "product") ->
  exists cs : list string,
    list_categories (Some h) = Ok (VStr <$> cs) /\
    StronglySorted string_lt cs /\
    NoDup cs /\
    (forall c, c ∈ cs <->
       c <> "" /\ exists d, d ∈ db_getitem h "product" /\ d !! "category" = Some (VStr c)).
Proof.
  intros Hcoll. unfold list_categories.
  set (coll := db_getitem h "product") in *.
  set (kept := filter (fun c => truthy c = true) (distinct coll "category")).
  assert (forall v, v ∈ kept <->
            truthy v = true /\ exists d, d ∈ coll /\ d !! "category" = Some v) as Hkept.
  { intros v. unfold kept.
    by rewrite list_elem_of_filter, elem_of_distinct. }
  assert (NoDup kept) as Hnd.
  { apply NoDup_filter, NoDup_remove_dups. }
  assert (kept = VStr <$> omap text_of kept) as Htexts.
  { apply texts_fmap, Forall_forall. intros v [_ (d & Hd & Hv)]%Hkept.
    rewrite Forall_forall in Hcoll. by apply (Hcoll d Hd). }
  set (cs := omap text_of kept) in *.
  assert (NoDup cs) as Hndcs.
  { rewrite Htexts in Hnd. by apply NoDup_fmap_1 in Hnd. }
  destruct (sorted_texts cs Hndcs) as (cs' & Hsort & Hp & Hs).
  exists cs'. rewrite Htexts. split; [done|]. split; [done|].
  split; [by rewrite Hp|].
  intros c. rewrite Hp.
  rewrite <- (list_elem_of_fmap_inj VStr cs c), <- Htexts, Hkept.
  by rewrite truthy_text.
Qed.

(** ** Queries *)

Lemma matches_empty (d : pydict) : matches ∅ d.
Proof. apply map_Forall_empty. Qed.

Lemma matches_singleton (k : string) (v : pyval) (d : pydict) :
  matches {[ k := v ]} d <-> d !! k = Some v.
Proof. unfold matches. by rewrite map_Forall_singleton. Qed.

Lemma find_all (coll : list pydict) : find coll ∅ = coll.
Proof.
  unfold find. induction coll as [|d coll IH]; [done|].
  rewrite filter_cons_True by apply matches_empty. by rewrite IH.
Qed.

Lemma find_equal (coll : list pydict) (k : string) (v : pyval) :
  find coll {[ k := v ]} = filter (fun d : pydict => d !! k = Some v) coll.
Proof. apply list_filter_iff. intros d. apply matches_singleton. Qed.

Section ListingFacts.

Variable float_repr : Q -> string.

Lemma list_products_unfiltered (h : database) :
  list_products float_repr None (Some h) =
    Ok (map (fun d => serialize_doc float_repr (Some d)) (db_getitem h "product")).
Proof. unfold list_products; simpl. by rewrite find_all. Qed.

(** C3, as amended.  For every non-empty category [X],
    [GET /api/products?category=X] returns the serialized forms of exactly
    the stored documents whose [category] is the string [X], in store
    order; without the parameter it returns every stored document. *)
Theorem list_products_by_category (X : string) (h : database) :
  X <> "" ->
  list_products float_repr (Some X) (Some h) =
    Ok (map (fun d => serialize_doc float_repr (Some d))
          (filter (fun d : pydict => d !! "category" = Some (VStr X))
             (db_getitem h "product"))) /\
  list_products float_repr None (Some h) =
    Ok (map (fun d => serialize_doc float_repr (Some d)) (db_getitem h "product")).
Proof.
  intros HX. split; [|apply list_products_unfiltered].
  unfold list_products.
  apply truthy_text in HX. rewrite HX. simpl. by rewrite find_equal.
Qed.

(** C10. With [category] the empty string the handler behaves as without
    the parameter, whatever the state of the store, and with a store it
    returns every stored document. *)
Theorem list_products_empty_string (db : option database) (h : database) :
  list_products float_repr (Some "") db = list_products float_repr None db /\
  list_products float_repr (Some "") (Some h) =
    Ok (map (fun d => serialize_doc float_repr (Some d)) (db_getitem h "product")).
Proof. split; [done|]. apply list_products_unfiltered. Qed.

(** ** Fetching one product *)

(** Whatever goes wrong in [get_product], the client sees status 400. *)
Lemma get_product_outcome (product_id : string) (db : option database) :
  (exists doc, get_product float_repr product_id db = Ok doc) \/
  get_product float_repr product_id db = Raise (HTTPException 400 "Invalid product id").
Proof.
  unfold get_product.
  match goal with |- context [try_except ?b _] => destruct b end; simpl; eauto.
Qed.

Lemma get_product_never_404 (product_id : string) (db : option database) :
  status 200 (get_product float_repr product_id db) <> 404%Z.
Proof.
  destruct (get_product_outcome product_id db) as [[doc ->]| ->]; simpl; lia.
Qed.

(** A malformed identifier is answered with 400. *)
Lemma get_product_malformed (product_id : string) (e : exn) (db : option database) :
  ObjectId_of_str product_id = Raise e ->
  status 200 (get_product float_repr product_id db) = 400%Z.
Proof.
  intros Hbad. unfold get_product. rewrite Hbad. by destruct db.
Qed.

(** C2, as the code has it.  A well-formed identifier that matches no
    stored document is answered with status 400: the 404 raised inside
    the [try] is caught by [except Exception] and replaced. *)
Theorem get_product_absent_is_400 (product_id : string) (oid : ObjectId) (h : database) :
  ObjectId_of_str product_id = Ok oid ->
  find_one (db_getitem h "product") {[ "_id" := VOid oid ]} = None ->
  get_product float_repr product_id (Some h) =
    Raise (HTTPException 400 "Invalid product id") /\
  status 200 (get_product float_repr product_id (Some h)) = 400%Z.
Proof.
  intros Hoid Hnone. unfold get_product. simpl. rewrite Hoid. simpl.
  by rewrite Hnone.
Qed.

End ListingFacts.

(** ** Without a store *)

(** C8. When the store handle is unset, [GET /api/categories] returns the
    empty list and [POST /api/seed] fails with status 500 and the detail
    "Database not available", leaving the handle unset. *)
Theorem store_unavailable (new_ids : nat -> ObjectId) :
  list_categories None = Ok [] /\
  seed_products new_ids None = (Raise (HTTPException 500 "Database not available"), None) /\
  status 200 (seed_products new_ids None).1 = 500%Z.
Proof. done. Qed.

(** ** Identifiers and their string form *)

Lemma hex_value_digit (b3 b2 b1 b0 : bool) :
  hex_value (hex_digit b3 b2 b1 b0) = Some (b3, b2, b1, b0).
Proof. by destruct b3, b2, b1, b0. Qed.

Lemma hex_digit_not_space (b3 b2 b1 b0 : bool) :
  is_ascii_space (hex_digit b3 b2 b1 b0) = false.
Proof. by destruct b3, b2, b1, b0. Qed.

Lemma fromhex_hexlify (bs : list ascii) : fromhex (hexlify bs) = Some bs.
Proof.
  induction bs as [|[b0 b1 b2 b3 b4 b5 b6 b7] bs IH]; [done|].
  cbn [hexlify fromhex].
  by rewrite hex_digit_not_space, !hex_value_digit, IH.
Qed.

Lemma length_hexlify (bs : list ascii) :
  String.length (hexlify bs) = 2 * length bs.
Proof.
  induction bs as [|[b0 b1 b2 b3 b4 b5 b6 b7] bs IH]; [done|].
  cbn [hexlify String.length length]. rewrite IH. lia.
Qed.

(** [ObjectId(str(o))] is [o] for a twelve-byte identifier. *)
Lemma ObjectId_of_str_hexlify (o : ObjectId) :
  length (oid_binary o) = 12 ->
  ObjectId_of_str (hexlify (oid_binary o)) = Ok o.
Proof.
  intros Hlen. unfold ObjectId_of_str.
  rewrite length_hexlify, Hlen, fromhex_hexlify. by destruct o.
Qed.

(** ** Insertion *)

Lemma find_one_None (coll : list pydict) (query : pydict) :
  (forall d, d ∈ coll -> ~ matches query d) -> find_one coll query = None.
Proof.
  unfold find_one, find. induction coll as [|d coll IH]; intros Hno; [done|].
  rewrite filter_cons_False by (apply Hno; left).
  apply IH. intros d' Hd'. apply Hno. by right.
Qed.

Lemma find_one_last (coll : list pydict) (query d0 : pydict) :
  (forall d, d ∈ coll -> ~ matches query d) -> matches query d0 ->
  find_one (coll ++ [d0]) query = Some d0.
Proof.
  intros Hno Hd0. unfold find_one, find. rewrite filter_app, head_app.
  fold (find coll query). fold (find_one coll query).
  rewrite find_one_None by done.
  by rewrite filter_cons_True.
Qed.

Lemma unused_no_match (new_id : ObjectId) (coll : list pydict) :
  unused new_id coll ->
  forall d, d ∈ coll -> ~ matches {[ "_id" := VOid new_id ]} d.
Proof. intros Hun d Hd Hm%matches_singleton. by apply (Hun d). Qed.

Lemma insert_one_fresh (new_id : ObjectId) (doc : pydict) (coll : list pydict) :
  doc !! "_id" = None -> unused new_id coll ->
  insert_one new_id doc coll =
    (Ok (VOid new_id), coll ++ [<["_id" := VOid new_id]> doc]).
Proof.
  intros Hdoc Hun. unfold insert_one. rewrite Hdoc, lookup_insert_eq. simpl.
  by rewrite find_one_None by by apply unused_no_match.
Qed.

Lemma insert_many_fresh (new_ids : nat -> ObjectId) (docs : list pydict) :
  forall (i : nat) (coll : list pydict),
    Forall (fun d : pydict => d !! "_id" = None) docs ->
    (forall j, i <= j < i + length docs -> unused (new_ids j) coll) ->
    (forall j k, i <= j -> j < k -> k < i + length docs -> new_ids j <> new_ids k) ->
    exists added : list pydict,
      insert_many new_ids i docs coll =
        (Ok ((fun j => VOid (new_ids j)) <$> seq i (length docs)), coll ++ added) /\
      delete "_id" <$> added = docs.
Proof.
  induction docs as [|d docs IH]; intros i coll Hdocs Hun Hdiff.
  - exists []. by rewrite app_nil_r.
  - apply Forall_cons in Hdocs as [Hd Hdocs]. simpl in Hun, Hdiff.
    cbn [insert_many].
    rewrite insert_one_fresh by (try done; apply Hun; lia).
    destruct (IH (S i) (coll ++ [<["_id" := VOid (new_ids i)]> d]) Hdocs)
      as (added & Hins & Hadded).
    { intros j Hj d' [Hd'|Hd']%elem_of_app.
      - apply (Hun j); [lia|done].
      - apply list_elem_of_singleton in Hd' as ->. rewrite lookup_insert_eq.
        intros [= Heq]. apply (Hdiff i j); [lia..|done]. }
    { intros j k Hj Hjk Hk. apply Hdiff; lia. }
    rewrite Hins. exists (<["_id" := VOid (new_ids i)]> d :: added).
    split.
    + simpl. by rewrite <- app_assoc.
    + rewrite fmap_cons, Hadded. by rewrite delete_insert_id.
Qed.

(** ** Seeding *)

Lemma count_documents_all (coll : list pydict) :
  count_documents coll ∅ = Z.of_nat (length coll).
Proof. unfold count_documents. by rewrite find_all. Qed.

Lemma demo_without_id : Forall (fun d : pydict => d !! "_id" = None) demo.
Proof. unfold demo. repeat constructor. Qed.

Lemma seed_products_nonempty (new_ids : nat -> ObjectId) (h : database) :
  db_getitem h "product" <> [] ->
  seed_products new_ids (Some h) =
    (Ok {[ "inserted" := VInt 0; "message" := VStr "Products already exist" ]}, Some h).
Proof.
  intros Hne. unfold seed_products. rewrite count_documents_all.
  destruct (db_getitem h "product") as [|d coll]; [done|].
  by rewrite (proj2 (Z.gtb_lt _ _)) by (simpl; lia).
Qed.

(** C5. On a non-empty [product] collection [POST /api/seed] inserts
    nothing, leaves the store as it is and reports that products already
    exist.  On an empty collection it inserts the demo set (the five demo
    documents, each with its new identifier) and reports five insertions;
    after that any further call is of the first kind. *)
Theorem seed_products_idempotent (new_ids new_ids' : nat -> ObjectId) (h : database) :
  (db_getitem h "product" <> [] ->
     seed_products new_ids (Some h) =
       (Ok {[ "inserted" := VInt 0; "message" := VStr "Products already exist" ]},
        Some h)) /\
  (db_getitem h "product" = [] ->
   (forall j k, j < k -> k < 5 -> new_ids j <> new_ids k) ->
     exists h' : database,
       seed_products new_ids (Some h) = (Ok {[ "inserted" := VInt 5 ]}, Some h') /\
       delete "_id" <$> db_getitem h' "product" = demo /\
       seed_products new_ids' (Some h') =
         (Ok {[ "inserted" := VInt 0; "message" := VStr "Products already exist" ]},
          Some h')).
Proof.
  split; [apply seed_products_nonempty|].
  intros Hempty Hdiff.
  destruct (insert_many_fresh new_ids demo 0 [] demo_without_id)
    as (added & Hins & Hadded).
  { intros j _ d Hd. by apply elem_of_nil in Hd. }
  { intros j k _ Hjk Hk. by apply Hdiff. }
  exists (<["product" := added]> h).
  assert (db_getitem (<["product" := added]> h) "product" = added) as Hget.
  { unfold db_getitem. by rewrite lookup_insert_eq. }
  split; [|split].
  - unfold seed_products. rewrite count_documents_all, Hempty, Hins.
    reflexivity.
  - by rewrite Hget.
  - apply seed_products_nonempty. rewrite Hget. intros ->. by rewrite <- Hadded in *.
Qed.

(** ** Validation *)

Import ProductSchema.

Lemma required_text_Ok (payload : pydict) (k s : string) :
  required_text payload k = Ok s -> payload !! k = Some (VStr s) /\ s <> "".
Proof.
  unfold required_text, validation_error. intros H.
  destruct (payload !! k) as [[]|]; try done.
  destruct (String.eqb s0 "") eqn:Hs; [done|].
  apply String.eqb_neq in Hs. by simplify_eq.
Qed.

Lemma required_price_Ok (payload : pydict) (q : Q) :
  required_price payload = Ok q ->
  exists v, payload !! "price" = Some v /\ is_number v = true /\
            as_number v = Some q /\ (0 <= q)%Q.
Proof.
  unfold required_price, validation_error. intros H.
  destruct (payload !! "price") as [[]|]; try done.
  - destruct (0 <=? n)%Z eqn:Hn; [|done]. simplify_eq.
    eexists; repeat split. apply Z.leb_le in Hn.
    unfold Qle; simpl. lia.
  - destruct (Qle_bool 0 q0) eqn:Hq; [|done]. simplify_eq.
    eexists; repeat split. by apply Qle_bool_iff.
Qed.

Lemma optional_text_Ok (payload : pydict) (k : string) (o : option string) :
  optional_text payload k = Ok o ->
  match payload !! k with
  | None | Some VNone => o = None
  | Some v => exists s, v = VStr s /\ o = Some s
  end.
Proof.
  unfold optional_text, validation_error. intros H.
  destruct (payload !! k) as [[]|]; simplify_eq; eauto.
Qed.

Lemma optional_in_stock_Ok (payload : pydict) (b : bool) :
  optional_in_stock payload = Ok b ->
  match payload !! "in_stock" with
  | None => b = true
  | Some v => v = VBool b
  end.
Proof.
  unfold optional_in_stock, validation_error. intros H.
  destruct (payload !! "in_stock") as [[]|]; by simplify_eq.
Qed.

Lemma bind_Ok {A B} (r : result A) (k : A -> result B) (b : B) :
  bind r k = Ok b -> exists a, r = Ok a /\ k a = Ok b.
Proof. destruct r; simpl; [eauto|done]. Qed.

(** What an accepted payload looks like. *)
Lemma Parse_Ok (payload : pydict) (p : ProductSchema.t) :
  Parse payload = Ok p ->
  (payload !! "title" = Some (VStr (title p)) /\ title p <> "") /\
  (payload !! "category" = Some (VStr (category p)) /\ category p <> "") /\
  (exists v, payload !! "price" = Some v /\ is_number v = true /\
             as_number v = Some (price p) /\ (0 <= price p)%Q) /\
  match payload !! "description" with
  | None | Some VNone => description p = None
  | Some v => exists s, v = VStr s /\ description p = Some s
  end /\
  match payload !! "in_stock" with
  | None => in_stock p = true
  | Some v => v = VBool (in_stock p)
  end /\
  match payload !! "image" with
  | None | Some VNone => image p = None
  | Some v => exists s, v = VStr s /\ image p = Some s
  end.
Proof.
  unfold Parse. intros H.
  apply bind_Ok in H as (t & Ht & H). apply bind_Ok in H as (d & Hd & H).
  apply bind_Ok in H as (q & Hq & H). apply bind_Ok in H as (c & Hc & H).
  apply bind_Ok in H as (s & Hs & H). apply bind_Ok in H as (i & Hi & H).
  simplify_eq. simpl.
  split; [by apply required_text_Ok|]. split; [by apply required_text_Ok|].
  split; [by apply required_price_Ok|]. split; [by apply optional_text_Ok|].
  split; [by apply optional_in_stock_Ok|]. by apply optional_text_Ok.
Qed.

(** A payload with a missing required field, a field of the wrong type or
    a broken constraint is not accepted. *)
Lemma Parse_invalid (payload : pydict) :
  missing_required payload \/ wrong_type payload \/ violates_constraint payload ->
  exists e, Parse payload = Raise e.
Proof.
  intros Hbad. destruct (Parse payload) as [p|e] eqn:HP; [exfalso|by eauto].
  apply Parse_Ok in HP as ((Ht & Htne) & (Hc & Hcne) & (v & Hv & Hnum & Hq & Hge)
                             & Hd & Hs & Hi).
  destruct Hbad as [(k & Hk & Hnone)|[(k & check & w & Hk & Hw & Hcheck)|Hbad]].
  - repeat (apply elem_of_cons in Hk as [->|Hk]; [congruence|]).
    by apply elem_of_nil in Hk.
  - unfold field_types in Hk.
    repeat (apply elem_of_cons in Hk as [[= -> ->]|Hk];
            [rewrite Hw in *; try congruence; destruct w; simpl in *;
             try congruence;
             solve [ destruct Hd as (? & ? & _); congruence
                   | destruct Hi as (? & ? & _); congruence ]|]).
    by apply elem_of_nil in Hk.
  - destruct Hbad as [Hbad|[Hbad|(w & q & Hw & Hwq & Hneg)]].
    + rewrite Hbad in Ht. by simplify_eq.
    + rewrite Hbad in Hc. by simplify_eq.
    + rewrite Hw in Hv. injection Hv as ->.
      rewrite Hq in Hwq. injection Hwq as <-.
      by apply Qlt_not_le in Hneg.
Qed.

(** C7. A create request whose payload misses a required field, has a
    field of the wrong type or breaks a constraint ([title] and [category]
    not empty, [price] at least 0) is answered with the client error 422;
    the handler does not run and the store is left as it is. *)
Theorem post_api_products_invalid (new_id : ObjectId) (payload : pydict)
    (db : option database) :
  missing_required payload \/ wrong_type payload \/ violates_constraint payload ->
  exists detail,
    post_api_products new_id payload db = (Raise (HTTPException 422 detail), db) /\
    (400 <= status 201 (post_api_products new_id payload db).1 < 500)%Z.
Proof.
  intros [e He]%Parse_invalid. unfold post_api_products. rewrite He.
  eexists. split; [done|]. simpl. lia.
Qed.

(** ** Creating and fetching *)

(** The document that [create_product] hands to the store. *)
Lemma create_product_fresh (new_id : ObjectId) (p : ProductSchema.t) (h : database) :
  unused new_id (db_getitem h "product") ->
  exists data : pydict,
    create_product new_id p (Some h) =
      (Ok {[ "id" := VOid new_id ]},
       Some (<["product" := db_getitem h "product" ++ [<["_id" := VOid new_id]> data]]> h)) /\
    data !! "_id" = None /\
    data !! "title" = Some (VStr (title p)) /\
    data !! "price" = Some (VNum (price p)) /\
    data !! "category" = Some (VStr (category p)) /\
    data !! "in_stock" = Some (VBool (in_stock p)) /\
    data !! "image" = Some (of_option (image p)).
Proof.
  intros Hun. unfold create_product, create_document.
  match goal with |- context [insert_one _ ?d _] => set (data := d) end.
  assert (data !! "_id" = None) as Hid.
  { unfold data, model_dump. by destruct (image p). }
  exists data. rewrite insert_one_fresh by done. split; [done|].
  split; [done|]. unfold data, model_dump. by destruct (image p).
Qed.

Section FetchFacts.

Variable float_repr : Q -> string.

Lemma get_product_found (product_id : string) (oid : ObjectId) (h : database)
    (doc : pydict) :
  ObjectId_of_str product_id = Ok oid ->
  find_one (db_getitem h "product") {[ "_id" := VOid oid ]} = Some doc ->
  doc <> ∅ ->
  get_product float_repr product_id (Some h) =
    Ok (Some (serialize_dict float_repr doc)).
Proof.
  intros Hoid Hfind Hne. unfold get_product. cbn [bind]. rewrite Hoid.
  cbn [bind]. rewrite Hfind. unfold not_doc, serialize_doc.
  by rewrite bool_decide_eq_false_2, decide_False.
Qed.

(** C6. A valid payload is created under the identifier the store
    assigns, and fetching the string form of the returned [id] yields a
    product with that [id] whose [title] and [category] are those of the
    payload and whose [price] is the payload's number; [in_stock] is
    [True] and [image] is [None] when the payload did not supply them. *)
Theorem create_then_fetch (new_id : ObjectId) (payload : pydict)
    (p : ProductSchema.t) (h : database) :
  Parse payload = Ok p ->
  length (oid_binary new_id) = 12 ->
  unused new_id (db_getitem h "product") ->
  exists (id : pyval) (db' : option database) (doc : pydict),
    post_api_products new_id payload (Some h) = (Ok {[ "id" := id ]}, db') /\
    get_product float_repr (py_str float_repr id) db' = Ok (Some doc) /\
    doc !! "id" = Some (VStr (py_str float_repr id)) /\
    doc !! "title" = payload !! "title" /\
    doc !! "category" = payload !! "category" /\
    (exists q, doc !! "price" = Some (VNum q) /\
               payload !! "price" ≫= as_number = Some q) /\
    (payload !! "in_stock" = None -> doc !! "in_stock" = Some (VBool true)) /\
    (payload !! "image" = None -> doc !! "image" = Some VNone).
Proof.
  intros HP Hlen Hun.
  destruct (create_product_fresh new_id p h Hun)
    as (data & Hcreate & Hid & Htitle & Hprice & Hcat & Hstock & Himage).
  set (stored := <["_id" := VOid new_id]> data) in *.
  set (coll := db_getitem h "product") in *.
  exists (VOid new_id), (Some (<["product" := coll ++ [stored]]> h)),
    (serialize_dict float_repr stored).
  apply Parse_Ok in HP as HP'.
  destruct HP' as ((Ht & _) & (Hc & _) & (v & Hv & _ & Hq & _) & _ & Hs & Hi).
  assert (stored !! "_id" = Some (VOid new_id)) as Hstored_id
    by apply lookup_insert_eq.
  assert (forall k, k <> "_id" -> k <> "id" ->
            serialize_dict float_repr stored !! k =
              str_if_ObjectId float_repr <$> data !! k) as Hother.
  { intros k Hk Hk'. rewrite serialize_dict_other by done.
    unfold stored. by rewrite lookup_insert_ne. }
  split; [|split; [|split; [|split; [|split; [|split; [|split]]]]]].
  - unfold post_api_products. by rewrite HP.
  - apply (get_product_found _ new_id).
    + by apply ObjectId_of_str_hexlify.
    + unfold db_getitem. rewrite lookup_insert_eq. simpl.
      apply find_one_last; [by apply unused_no_match|].
      by apply matches_singleton.
    + apply insert_non_empty.
  - by apply serialize_dict_id.
  - by rewrite Hother, Htitle, Ht.
  - by rewrite Hother, Hcat, Hc.
  - exists (price p). rewrite Hother, Hprice, Hv by done. done.
  - intros Hnone. rewrite Hnone in Hs. by rewrite Hother, Hstock, Hs.
  - intros Hnone. rewrite Hnone in Hi. by rewrite Hother, Himage, Hi.
Qed.

End FetchFacts.

(** ** The argument of [serialize_doc] as an object *)

Section HeapFacts.

Variable float_repr : Q -> string.

Lemma deref_insert_eq (h : gmap positive pydict) (l : positive) (x : pydict) :
  deref (<[l := x]> h) l = x.
Proof. unfold deref. by rewrite lookup_insert_eq. Qed.

Lemma dict_setitem_insert (h : gmap positive pydict) (l : positive) (x : pydict)
    (k : string) (v : pyval) :
  dict_setitem l k v (<[l := x]> h) = <[l := <[k := v]> x]> h.
Proof. unfold dict_setitem. by rewrite deref_insert_eq, insert_insert_eq. Qed.

(** The loop on the object at [l] is the loop on its content. *)
Lemma foldl_convert_item_at (l : positive) (items : list (string * pyval)) :
  forall (x : pydict) (h : gmap positive pydict),
    foldl (convert_item_at float_repr l) (<[l := x]> h) items =
      <[l := foldl (convert_item float_repr) x items]> h.
Proof.
  induction items as [|[k v] items IH]; intros x h; [done|].
  cbn [foldl]. unfold convert_item_at at 2, convert_item at 2. cbn [fst snd].
  destruct (is_ObjectId v); [|apply IH].
  rewrite dict_setitem_insert. apply IH.
Qed.

(** On a non-empty dictionary the function allocates one new object,
    which holds the serialized document, and writes nowhere else. *)
Lemma serialize_doc_heap_nonempty (h : gmap positive pydict) (l : positive) (d : pydict) :
  h !! l = Some d -> d <> ∅ ->
  serialize_doc_heap float_repr (Some l) h =
    (Some (fresh (dom h)), <[fresh (dom h) := serialize_dict float_repr d]> h).
Proof.
  intros Hl Hne. unfold serialize_doc_heap, dict_copy.
  assert (deref h l = d) as -> by (unfold deref; by rewrite Hl).
  rewrite decide_False by done.
  set (l' := fresh (dom h)).
  unfold dict_contains, dict_pop, dict_items, serialize_dict.
  rewrite !deref_insert_eq.
  destruct (d !! "_id") as [v|] eqn:Hid; cbn [bool_decide default].
  - rewrite bool_decide_eq_true_2 by eauto.
    rewrite insert_insert_eq, dict_setitem_insert, deref_insert_eq.
    by rewrite foldl_convert_item_at.
  - rewrite bool_decide_eq_false_2 by (by intros [? ?]).
    rewrite deref_insert_eq. by rewrite foldl_convert_item_at.
Qed.

(** C9. [serialize_doc] does not mutate its argument.  Called on a
    non-empty dictionary object it returns a new object; the argument
    still holds the same items afterwards, its [_id] included, no other
    existing object is written, and the new object holds the serialized
    document. *)
Theorem serialize_doc_keeps_input (h : gmap positive pydict) (l : positive) (d : pydict) :
  h !! l = Some d -> d <> ∅ ->
  exists (l' : positive) (h' : gmap positive pydict),
    serialize_doc_heap float_repr (Some l) h = (Some l', h') /\
    h !! l' = None /\
    h' !! l = Some d /\
    (forall l0, l0 <> l' -> h' !! l0 = h !! l0) /\
    h' !! l' = serialize_doc float_repr (Some d).
Proof.
  intros Hl Hne. exists (fresh (dom h)), (<[fresh (dom h) := serialize_dict float_repr d]> h).
  assert (h !! fresh (dom h) = None) as Hfresh.
  { apply not_elem_of_dom, is_fresh. }
  split; [by apply serialize_doc_heap_nonempty|]. split; [done|].
  split; [|split].
  - rewrite lookup_insert_ne; [done|]. intros Heq. congruence.
  - intros l0 Hl0. by rewrite lookup_insert_ne.
  - rewrite lookup_insert_eq. unfold serialize_doc. by rewrite decide_False.
Qed.


End HeapFacts.

(** * The properties on sample data *)

Lemma tee_non_empty : tee <> ∅.
Proof. intros H. by apply (f_equal (lookup "title")) in H. Qed.

Lemma sample_id_distinct (j k : nat) : j < k -> k < 5 -> sample_id j <> sample_id k.
Proof.
  intros Hjk Hk Heq. assert (j < 5) as Hj by lia.
  destruct j as [|[|[|[|[|j]]]]]; try lia;
    destruct k as [|[|[|[|[|k]]]]]; try lia; by vm_compute in Heq.
Qed.

Example serialize_tee :
  serialize_doc float_repr_sample (Some tee) =
    Some {[ "id" := VStr "000000000000000000000001";
            "title" := VStr "Tee";
            "price" := VNum 10;
            "category" := VStr "Tops";
            "in_stock" := VBool true;
            "image" := VNone;
            "supplier" := VStr "000000000000000000000007" ]}.
Proof. compute_done. Qed.

(** The comparison of categories is exact: a different case does not match. *)
Example list_products_case_sensitive :
  list_products float_repr_sample (Some "tops") (Some sample_store) = Ok [] /\
  list_products float_repr_sample (Some "Tops") (Some sample_store) =
    Ok [serialize_doc float_repr_sample (Some tee)].
Proof. split; compute_done. Qed.

Example list_categories_demo :
  list_categories (Some demo_store) =
    Ok [VStr "Bottoms"; VStr "Hoodies"; VStr "Outerwear"; VStr "Tops"].
Proof. compute_done. Qed.

Example get_product_found_tee :
  get_product float_repr_sample "000000000000000000000001" (Some sample_store) =
    Ok (serialize_doc float_repr_sample (Some tee)).
Proof. compute_done. Qed.

Example get_product_malformed_id :
  get_product float_repr_sample "not-an-id" (Some sample_store) =
    Raise (HTTPException 400 "Invalid product id").
Proof. compute_done. Qed.

Lemma serialize_doc_spec_witness :
  (not_doc (Some ∅) = true /\ serialize_doc float_repr_sample (Some ∅) = Some ∅) /\
  (tee <> ∅ /\
   exists d' : pydict,
     serialize_doc float_repr_sample (Some tee) = Some d' /\
     d' !! "_id" = None /\
     d' !! "id" = Some (VStr "000000000000000000000001") /\
     d' !! "supplier" = Some (VStr "000000000000000000000007") /\
     d' !! "title" = Some (VStr "Tee") /\
     d' !! "description" = None).
Proof.
  split.
  - split; [reflexivity|].
    apply (proj1 (serialize_doc_spec float_repr_sample (Some ∅))). reflexivity.
  - split; [exact tee_non_empty|].
    destruct (proj2 (serialize_doc_spec float_repr_sample (Some tee)) tee eq_refl
                tee_non_empty) as (d' & H1 & H2 & H3 & H4 & H5 & H6).
    exists d'. split; [exact H1|]. split; [exact H2|].
    split; [exact (H3 _ eq_refl)|].
    split; [apply (H4 "supplier" (sample_id 7)); [discriminate|discriminate|reflexivity]|].
    split; [apply (H5 "title"); [discriminate|discriminate|reflexivity|reflexivity]|].
    apply (H6 "description"); [discriminate|reflexivity].
Defined.

Lemma get_product_absent_is_400_witness :
  ObjectId_of_str "000000000000000000000000" = Ok (sample_id 0) /\
  find_one (db_getitem sample_store "product") {[ "_id" := VOid (sample_id 0) ]} = None /\
  get_product float_repr_sample "000000000000000000000000" (Some sample_store) =
    Raise (HTTPException 400 "Invalid product id") /\
  status 200 (get_product float_repr_sample "000000000000000000000000" (Some sample_store))
    = 400%Z.
Proof.
  split; [reflexivity|]. split; [reflexivity|].
  apply (get_product_absent_is_400 float_repr_sample _ (sample_id 0)); reflexivity.
Defined.

(** C3 as stated fails for the empty category: no stored product has the
    empty category, yet the handler returns the stored product. *)
Lemma list_products_empty_category_counterexample :
  filter (fun d : pydict => d !! "category" = Some (VStr ""))
    (db_getitem sample_store "product") = [] /\
  list_products float_repr_sample (Some "") (Some sample_store) <>
    Ok (map (fun d => serialize_doc float_repr_sample (Some d))
          (filter (fun d : pydict => d !! "category" = Some (VStr ""))
             (db_getitem sample_store "product"))).
Proof. split; [reflexivity|]. compute_done. Qed.

Lemma list_products_by_category_witness :
  "Tops" <> "" /\
  list_products float_repr_sample (Some "Tops") (Some sample_store) =
    Ok (map (fun d => serialize_doc float_repr_sample (Some d))
          (filter (fun d : pydict => d !! "category" = Some (VStr "Tops"))
             (db_getitem sample_store "product"))) /\
  list_products float_repr_sample None (Some sample_store) =
    Ok (map (fun d => serialize_doc float_repr_sample (Some d))
          (db_getitem sample_store "product")).
Proof.
  split; [discriminate|].
  apply (list_products_by_category float_repr_sample "Tops" sample_store). discriminate.
Defined.

Lemma demo_text_categories : Forall text_category (db_getitem demo_store "product").
Proof.
  change (db_getitem demo_store "product") with demo. unfold demo.
  repeat constructor; intros v Hv; vm_compute in Hv; injection Hv as <-; by eexists.
Qed.

Lemma list_categories_spec_witness :
  Forall text_category (db_getitem demo_store "product") /\
  exists cs : list string,
    list_categories (Some demo_store) = Ok (VStr <$> cs) /\
    StronglySorted string_lt cs /\
    NoDup cs /\
    (forall c, c ∈ cs <->
       c <> "" /\
       exists d, d ∈ db_getitem demo_store "product" /\ d !! "category" = Some (VStr c)).
Proof.
  split; [exact demo_text_categories|].
  exact (list_categories_spec demo_store demo_text_categories).
Defined.

Lemma seed_products_idempotent_witness :
  (db_getitem sample_store "product" <> [] /\
   seed_products sample_id (Some sample_store) =
     (Ok {[ "inserted" := VInt 0; "message" := VStr "Products already exist" ]},
      Some sample_store)) /\
  (db_getitem ∅ "product" = [] /\
   exists h' : database,
     seed_products sample_id (Some ∅) = (Ok {[ "inserted" := VInt 5 ]}, Some h') /\
     delete "_id" <$> db_getitem h' "product" = demo /\
     seed_products sample_id (Some h') =
       (Ok {[ "inserted" := VInt 0; "message" := VStr "Products already exist" ]},
        Some h')).
Proof.
  split.
  - assert (db_getitem sample_store "product" <> []) as Hne by discriminate.
    split; [exact Hne|].
    exact (proj1 (seed_products_idempotent sample_id sample_id sample_store) Hne).
  - split; [reflexivity|].
    exact (proj2 (seed_products_idempotent sample_id sample_id ∅) eq_refl
             sample_id_distinct).
Defined.

Lemma create_then_fetch_witness :
  Parse tee_payload = Ok tee_product /\
  length (oid_binary (sample_id 1)) = 12 /\
  unused (sample_id 1) (db_getitem ∅ "product") /\
  exists (id : pyval) (db' : option database) (doc : pydict),
    post_api_products (sample_id 1) tee_payload (Some ∅) = (Ok {[ "id" := id ]}, db') /\
    get_product float_repr_sample (py_str float_repr_sample id) db' = Ok (Some doc) /\
    doc !! "id" = Some (VStr (py_str float_repr_sample id)) /\
    doc !! "title" = tee_payload !! "title" /\
    doc !! "category" = tee_payload !! "category" /\
    (exists q, doc !! "price" = Some (VNum q) /\
               tee_payload !! "price" ≫= as_number = Some q) /\
    (tee_payload !! "in_stock" = None -> doc !! "in_stock" = Some (VBool true)) /\
    (tee_payload !! "image" = None -> doc !! "image" = Some VNone).
Proof.
  assert (unused (sample_id 1) (db_getitem ∅ "product")) as Hun.
  { intros d Hd. by apply elem_of_nil in Hd. }
  split; [reflexivity|]. split; [reflexivity|]. split; [exact Hun|].
  exact (create_then_fetch float_repr_sample (sample_id 1) tee_payload tee_product ∅
           eq_refl eq_refl Hun).
Defined.

Lemma untitled_payload_missing : missing_required untitled_payload.
Proof. exists "title". split; [left|reflexivity]. Qed.

Lemma post_api_products_invalid_witness :
  (missing_required untitled_payload \/ wrong_type untitled_payload \/
   violates_constraint untitled_payload) /\
  exists detail,
    post_api_products (sample_id 1) untitled_payload (Some sample_store) =
      (Raise (HTTPException 422 detail), Some sample_store) /\
    (400 <= status 201
              (post_api_products (sample_id 1) untitled_payload (Some sample_store)).1
     < 500)%Z.
Proof.
  split; [left; exact untitled_payload_missing|].
  exact (post_api_products_invalid (sample_id 1) untitled_payload (Some sample_store)
           (or_introl untitled_payload_missing)).
Defined.

Lemma serialize_doc_keeps_input_witness :
  ({[ 1%positive := tee ]} : gmap positive pydict) !! 1%positive = Some tee /\
  tee <> ∅ /\
  exists (l' : positive) (h' : gmap positive pydict),
    serialize_doc_heap float_repr_sample (Some 1%positive) {[ 1%positive := tee ]} =
      (Some l', h') /\
    ({[ 1%positive := tee ]} : gmap positive pydict) !! l' = None /\
    h' !! 1%positive = Some tee /\
    (forall l0, l0 <> l' ->
       h' !! l0 = ({[ 1%positive := tee ]} : gmap positive pydict) !! l0) /\
    h' !! l' = serialize_doc float_repr_sample (Some tee).
Proof.
  split; [reflexivity|]. split; [exact tee_non_empty|].
  exact (serialize_doc_keeps_input float_repr_sample {[ 1%positive := tee ]}
           1%positive tee eq_refl tee_non_empty).
Defined.

Lemma get_product_malformed_witness :
  ObjectId_of_str "not-an-id" = Raise (Error InvalidId "not a valid ObjectId") /\
  status 200 (get_product float_repr_sample "not-an-id" (Some sample_store)) = 400%Z.
Proof.
  split; [reflexivity|].
  exact (get_product_malformed float_repr_sample "not-an-id" _ (Some sample_store) eq_refl).
Defined.


(** * Further properties of the handlers *)

(** ** What [serialize_doc] leaves behind *)

Section SerializationResult.

Variable float_repr : Q -> string.

Lemma str_if_ObjectId_not_ObjectId (v : pyval) :
  is_ObjectId (str_if_ObjectId float_repr v) = false.
Proof. by destruct v. Qed.

Lemma str_if_ObjectId_idemp (v : pyval) :
  str_if_ObjectId float_repr (str_if_ObjectId float_repr v) = str_if_ObjectId float_repr v.
Proof. by destruct v. Qed.

Lemma serialize_dict_values (d : pydict) (k : string) (v : pyval) :
  serialize_dict float_repr d !! k = Some v -> is_ObjectId v = false.
Proof.
  rewrite serialize_dict_unfold, lookup_fmap. intros Hv.
  apply fmap_Some in Hv as (w & _ & ->). apply str_if_ObjectId_not_ObjectId.
Qed.

(** A dictionary with no [_id] and no [ObjectId] value is serialized to
    itself. *)
Lemma serialize_dict_plain (d : pydict) :
  d !! "_id" = None ->
  (forall k v, d !! k = Some v -> is_ObjectId v = false) ->
  serialize_dict float_repr d = d.
Proof.
  intros Hid Hplain. rewrite serialize_dict_unfold, Hid.
  apply map_eq; intros k. rewrite lookup_fmap.
  destruct (d !! k) as [v|] eqn:Hk; [|done]. simpl.
  unfold str_if_ObjectId. by rewrite (Hplain k v).
Qed.


(** Serializing twice is serializing once. *)
Theorem serialize_doc_idempotent (doc : option pydict) :
  serialize_doc float_repr (serialize_doc float_repr doc) = serialize_doc float_repr doc.
Proof.
  destruct doc as [d|]; [|done]. simpl.
  destruct (decide (d = ∅)) as [->|Hne]; simpl.
  - by rewrite decide_True.
  - destruct (decide (serialize_dict float_repr d = ∅)) as [He|He]; [done|].
    f_equal. apply serialize_dict_plain.
    + apply serialize_dict_no__id.
    + apply serialize_dict_values.
Qed.

(** The keys of the result are the keys of the input, with [_id] replaced
    by [id]: no other key appears or disappears. *)
Theorem serialize_doc_keys (d : pydict) :
  d <> ∅ ->
  exists d' : pydict,
    serialize_doc float_repr (Some d) = Some d' /\
    dom d' = if decide (is_Some (d !! "_id"))
             then {[ "id" ]} ∪ (dom d ∖ {[ "_id" ]})
             else dom d.
Proof.
  intros Hne. exists (serialize_dict float_repr d). simpl.
  rewrite decide_False by done. split; [done|].
  rewrite serialize_dict_unfold, dom_fmap_L.
  destruct (d !! "_id") as [v|] eqn:Hid.
  - rewrite decide_True by eauto. by rewrite dom_insert_L, dom_delete_L.
  - rewrite decide_False; [done|]. by intros [? ?].
Qed.

End SerializationResult.

(** ** What the product handlers return *)

Lemma find_one_Some (coll : list pydict) (query d : pydict) :
  find_one coll query = Some d -> d ∈ coll /\ matches query d.
Proof.
  unfold find_one, find. intros Hd%head_Some_elem_of.
  apply list_elem_of_filter in Hd. tauto.
Qed.

Lemma find_one_is_Some (coll : list pydict) (query d : pydict) :
  d ∈ coll -> matches query d -> is_Some (find_one coll query).
Proof.
  intros Hd Hm. unfold find_one, find. apply head_is_Some.
  intros Hnil. assert (d ∈ filter (matches query) coll) as Hin.
  { by apply list_elem_of_filter. }
  rewrite Hnil in Hin. by apply elem_of_nil in Hin.
Qed.

Section HandlerResults.

Variable float_repr : Q -> string.

Lemma serialize_doc_Some (d : pydict) :
  exists d' : pydict,
    serialize_doc float_repr (Some d) = Some d' /\
    d' !! "_id" = None /\
    (forall k v, d' !! k = Some v -> is_ObjectId v = false).
Proof.
  simpl. destruct (decide (d = ∅)) as [->|Hne].
  - exists ∅. split; [done|]. split; [done|]. intros k v Hv.
    by rewrite lookup_empty in Hv.
  - exists (serialize_dict float_repr d). split; [done|].
    split; [apply serialize_dict_no__id|apply serialize_dict_values].
Qed.

(** Whatever the store returns, [list_products] answers with dictionaries
    only, none of which has an [_id] or holds an [ObjectId]. *)
Theorem list_products_serialized (category : option string) (db : option database)
    (r : list (option pydict)) :
  list_products float_repr category db = Ok r ->
  Forall (fun o => exists d' : pydict,
            o = Some d' /\ d' !! "_id" = None /\
            (forall k v, d' !! k = Some v -> is_ObjectId v = false)) r.
Proof.
  unfold list_products. intros Hr.
  apply bind_Ok in Hr as (docs & _ & Hr). injection Hr as <-.
  apply Forall_forall. intros o (d & -> & _)%list_elem_of_fmap.
  apply serialize_doc_Some.
Qed.

(** [get_product] returns a document exactly when the identifier is
    well-formed, the store is there and a stored product has that [_id].
    The document it returns is the serialized form of a stored product
    with that [_id], and its [id] is the identifier in lower-case
    hexadecimal, however the request spelled it. *)
Theorem get_product_success (product_id : string) (db : option database) :
  ((exists r, get_product float_repr product_id db = Ok r) <->
   exists (h : database) (oid : ObjectId) (doc : pydict),
     db = Some h /\ ObjectId_of_str product_id = Ok oid /\
     doc ∈ db_getitem h "product" /\ doc !! "_id" = Some (VOid oid)) /\
  (forall r, get_product float_repr product_id db = Ok r ->
     exists (h : database) (oid : ObjectId) (doc d' : pydict),
       db = Some h /\ ObjectId_of_str product_id = Ok oid /\
       doc ∈ db_getitem h "product" /\ doc !! "_id" = Some (VOid oid) /\
       r = Some d' /\ serialize_doc float_repr (Some doc) = Some d' /\
       d' !! "id" = Some (VStr (hexlify (oid_binary oid))) /\
       d' !! "_id" = None).
Proof.
  assert (forall r, get_product float_repr product_id db = Ok r ->
     exists (h : database) (oid : ObjectId) (doc d' : pydict),
       db = Some h /\ ObjectId_of_str product_id = Ok oid /\
       doc ∈ db_getitem h "product" /\ doc !! "_id" = Some (VOid oid) /\
       r = Some d' /\ serialize_doc float_repr (Some doc) = Some d' /\
       d' !! "id" = Some (VStr (hexlify (oid_binary oid))) /\
       d' !! "_id" = None) as Hsound.
  { intros r Hr. unfold get_product in Hr.
    destruct db as [h|]; [|done]. cbn [bind] in Hr.
    destruct (ObjectId_of_str product_id) as [oid|e] eqn:Hoid; [|done].
    cbn [bind] in Hr.
    destruct (find_one (db_getitem h "product") {[ "_id" := VOid oid ]})
      as [doc|] eqn:Hfind; [|done].
    apply find_one_Some in Hfind as [Hdoc Hid%matches_singleton].
    assert (doc <> ∅) as Hne.
    { intros ->. by rewrite lookup_empty in Hid. }
    unfold not_doc in Hr. rewrite bool_decide_eq_false_2 in Hr by done.
    simpl in Hr. rewrite decide_False in Hr by done. injection Hr as <-.
    exists h, oid, doc, (serialize_dict float_repr doc).
    repeat split; try done.
    - simpl. by rewrite decide_False.
    - by rewrite (serialize_dict_id _ _ _ Hid).
    - apply serialize_dict_no__id. }
  split; [|exact Hsound]. split.
  - intros [r Hr]. destruct (Hsound r Hr) as (h & oid & doc & d' & H).
    exists h, oid, doc. tauto.
  - intros (h & oid & doc & -> & Hoid & Hdoc & Hid).
    destruct (find_one_is_Some (db_getitem h "product") {[ "_id" := VOid oid ]} doc)
      as [doc' Hfind]; [done|by apply matches_singleton|].
    exists (Some (serialize_dict float_repr doc')).
    apply (get_product_found _ _ oid); [done..|].
    apply find_one_Some in Hfind as [_ Hid'%matches_singleton].
    intros ->. by rewrite lookup_empty in Hid'.
Qed.

End HandlerResults.


(** ** What seeding does to the store *)

Lemma insert_one_outcome (new_id : ObjectId) (doc : pydict) (coll : list pydict) :
  (exists id doc', insert_one new_id doc coll = (Ok id, coll ++ [doc'])) \/
  (exists e, insert_one new_id doc coll = (Raise e, coll)).
Proof.
  unfold insert_one.
  match goal with |- context [find_one ?c ?q] => destruct (find_one c q) end; eauto.
Qed.

(** A batch only appends: as many documents as it returns identifiers when
    it succeeds, fewer than the batch when it fails. *)
Lemma insert_many_outcome (new_ids : nat -> ObjectId) (docs : list pydict) :
  forall (i : nat) (coll : list pydict),
    exists added : list pydict,
      (insert_many new_ids i docs coll).2 = coll ++ added /\
      match (insert_many new_ids i docs coll).1 with
      | Ok ids => length ids = length docs /\ length added = length docs
      | Raise _ => length added < length docs
      end.
Proof.
  induction docs as [|d docs IH]; intros i coll.
  - exists []. by rewrite app_nil_r.
  - cbn [insert_many].
    destruct (insert_one_outcome (new_ids i) d coll) as [(id & d' & ->)|(e & ->)].
    + destruct (IH (S i) (coll ++ [d'])) as (added & Hcoll & Hr).
      destruct (insert_many new_ids (S i) docs (coll ++ [d'])) as [r coll''].
      simpl in *. exists (d' :: added). rewrite Hcoll, <- app_assoc.
      split; [done|]. destruct r; simpl; lia.
    + exists []. rewrite app_nil_r. simpl. split; [done|lia].
Qed.

(** Seeding only appends to the [product] collection: every other
    collection is as before, the products that were there are still there in
    the same order, and when the handler answers, the number it reports
    under [inserted] is the number of documents it added. *)
Theorem seed_products_appends (new_ids : nat -> ObjectId) (h : database) :
  exists (h' : database) (added : list pydict),
    (seed_products new_ids (Some h)).2 = Some h' /\
    (forall name, name <> "product" -> h' !! name = h !! name) /\
    db_getitem h' "product" = db_getitem h "product" ++ added /\
    (forall response, (seed_products new_ids (Some h)).1 = Ok response ->
       response !! "inserted" = Some (VInt (Z.of_nat (length added)))).
Proof.
  unfold seed_products. rewrite count_documents_all.
  destruct (db_getitem h "product") as [|d coll] eqn:Hcoll.
  - change (Z.of_nat (length []) >? 0)%Z with false. cbv iota.
    destruct (insert_many_outcome new_ids demo 0 []) as (added & Hadded & Hr).
    destruct (insert_many new_ids 0 demo []) as [r coll']. simpl in *. subst coll'.
    exists (<["product" := added]> h), added.
    split; [done|]. split; [by intros name Hne; rewrite lookup_insert_ne|].
    split; [unfold db_getitem; by rewrite lookup_insert_eq|].
    intros response Hresp. destruct r as [ids|e]; [|done]. simpl in Hresp.
    injection Hresp as <-. rewrite lookup_singleton_eq.
    destruct Hr as [-> ->]. done.
  - rewrite (proj2 (Z.gtb_lt _ _)) by (simpl; lia).
    exists h, []. split; [done|]. split; [done|].
    split; [by rewrite Hcoll, app_nil_r|].
    intros response [= <-]. done.
Qed.

Lemma insert_many_fresh_exact (new_ids : nat -> ObjectId) (docs : list pydict) :
  forall (i : nat) (coll : list pydict),
    Forall (fun d : pydict => d !! "_id" = None) docs ->
    (forall j, i <= j < i + length docs -> unused (new_ids j) coll) ->
    (forall j k, i <= j -> j < k -> k < i + length docs -> new_ids j <> new_ids k) ->
    insert_many new_ids i docs coll =
      (Ok ((fun j => VOid (new_ids j)) <$> seq i (length docs)),
       coll ++ zip_with (fun j d => <["_id" := VOid (new_ids j)]> d)
                 (seq i (length docs)) docs).
Proof.
  induction docs as [|d docs IH]; intros i coll Hdocs Hun Hdiff.
  - simpl. by rewrite app_nil_r.
  - apply Forall_cons in Hdocs as [Hd Hdocs]. simpl in Hun, Hdiff.
    cbn [insert_many].
    rewrite insert_one_fresh by (try done; apply Hun; lia).
    rewrite (IH (S i)); [|done| |].
    + simpl. by rewrite <- app_assoc.
    + intros j Hj d' [Hd'|Hd']%elem_of_app.
      * apply (Hun j); [lia|done].
      * apply list_elem_of_singleton in Hd' as ->. rewrite lookup_insert_eq.
        intros [= Heq]. apply (Hdiff i j); [lia..|done].
    + intros j k Hj Hjk Hk. apply Hdiff; lia.
Qed.

(** The store after seeding an empty collection. *)
Lemma seed_products_empty (new_ids : nat -> ObjectId) (h : database) :
  db_getitem h "product" = [] ->
  (forall j k, j < k -> k < 5 -> new_ids j <> new_ids k) ->
  seed_products new_ids (Some h) =
    (Ok {[ "inserted" := VInt 5 ]}, Some (<["product" := seeded new_ids]> h)).
Proof.
  intros Hempty Hdiff. unfold seed_products.
  rewrite count_documents_all, Hempty.
  rewrite (insert_many_fresh_exact new_ids demo 0 [] demo_without_id).
  - reflexivity.
  - intros j _ d Hd. by apply elem_of_nil in Hd.
  - intros j k _ Hjk Hk. by apply Hdiff.
Qed.

Lemma db_getitem_insert (h : database) (name : string) (coll : list pydict) :
  db_getitem (<[name := coll]> h) name = coll.
Proof. unfold db_getitem. by rewrite lookup_insert_eq. Qed.

(** After an empty store is seeded, [GET /api/categories] lists the four
    categories of the demo set in order, whatever identifiers the store
    assigned. *)
Theorem seed_then_list_categories (new_ids : nat -> ObjectId) (h : database) :
  db_getitem h "product" = [] ->
  (forall j k, j < k -> k < 5 -> new_ids j <> new_ids k) ->
  exists h' : database,
    (seed_products new_ids (Some h)).2 = Some h' /\
    list_categories (Some h') =
      Ok [VStr "Bottoms"; VStr "Hoodies"; VStr "Outerwear"; VStr "Tops"].
Proof.
  intros Hempty Hdiff. rewrite seed_products_empty by done.
  exists (<["product" := seeded new_ids]> h). split; [done|].
  unfold list_categories. rewrite db_getitem_insert.
  vm_compute. reflexivity.
Qed.

Lemma find_one_unique (coll : list pydict) (query d : pydict) :
  d ∈ coll -> matches query d ->
  (forall d', d' ∈ coll -> matches query d' -> d' = d) ->
  find_one coll query = Some d.
Proof.
  intros Hd Hm Huniq.
  destruct (find_one_is_Some coll query d Hd Hm) as [d' Hd'].
  rewrite Hd'. f_equal. apply find_one_Some in Hd' as [Hin Hm']. by apply Huniq.
Qed.

Lemma demo_plain (d : pydict) :
  d ∈ demo -> d !! "_id" = None /\ (forall k v, d !! k = Some v -> is_ObjectId v = false).
Proof.
  intros Hd. assert (Forall (fun d : pydict =>
      d !! "_id" = None /\ map_Forall (fun _ v => is_ObjectId v = false) d) demo) as Hall.
  { unfold demo. repeat constructor; compute_done. }
  rewrite Forall_forall in Hall. destruct (Hall d Hd) as [Hid Hplain].
  split; [done|]. intros k v Hv. by apply (Hplain k v).
Qed.

Section SeedRoundTrip.

Variable float_repr : Q -> string.

(** A stored document that had neither [_id] nor [ObjectId] values before
    the store gave it its identifier is serialized to itself with [id]
    added. *)
Lemma serialize_dict_stored (oid : ObjectId) (d : pydict) :
  d !! "_id" = None ->
  (forall k v, d !! k = Some v -> is_ObjectId v = false) ->
  serialize_dict float_repr (<["_id" := VOid oid]> d) =
    <["id" := VStr (hexlify (oid_binary oid))]> d.
Proof.
  intros Hid Hplain. rewrite serialize_dict_unfold, lookup_insert_eq.
  rewrite delete_insert_id by done. simpl.
  apply map_eq; intros k. rewrite lookup_fmap.
  destruct (decide (k = "id")) as [->|Hk].
  - by rewrite !lookup_insert_eq.
  - rewrite !lookup_insert_ne by done.
    destruct (d !! k) as [v|] eqn:Hv; [|done]. simpl.
    unfold str_if_ObjectId. by rewrite (Hplain k v).
Qed.

(** After an empty store is seeded, each demo product can be fetched by
    the string form of the identifier it was given, and what comes back is
    the demo document with that string under [id]. *)
Theorem seed_then_get_product (new_ids : nat -> ObjectId) (h : database)
    (i : nat) (d : pydict) :
  db_getitem h "product" = [] ->
  (forall j k, j < k -> k < 5 -> new_ids j <> new_ids k) ->
  length (oid_binary (new_ids i)) = 12 ->
  demo !! i = Some d ->
  exists h' : database,
    (seed_products new_ids (Some h)).2 = Some h' /\
    get_product float_repr (hexlify (oid_binary (new_ids i))) (Some h') =
      Ok (Some (<["id" := VStr (hexlify (oid_binary (new_ids i)))]> d)).
Proof.
  intros Hempty Hdiff Hlen Hd. rewrite seed_products_empty by done.
  exists (<["product" := seeded new_ids]> h). split; [done|].
  assert (d ∈ demo) as Hin by (by eapply list_elem_of_lookup_2).
  destruct (demo_plain d Hin) as [Hid Hplain].
  assert (i < 5) as Hi by (by apply lookup_lt_Some in Hd).
  assert (forall j k, j < 5 -> k < 5 -> new_ids j = new_ids k -> j = k) as Hinj.
  { intros j k Hj Hk Heq. destruct (Nat.lt_trichotomy j k) as [Hlt|[->|Hlt]]; [|done|].
    - by destruct (Hdiff j k Hlt Hk).
    - by destruct (Hdiff k j Hlt Hj). }
  rewrite <- (serialize_dict_stored (new_ids i) d Hid Hplain).
  apply (get_product_found _ _ (new_ids i)).
  - by apply ObjectId_of_str_hexlify.
  - rewrite db_getitem_insert. apply find_one_unique.
    + unfold seeded. apply list_elem_of_lookup. exists i.
      rewrite lookup_zip_with, lookup_seq_lt by done. simpl. by rewrite Hd.
    + apply matches_singleton, lookup_insert_eq.
    + intros d' Hd' Hm%matches_singleton. unfold seeded in Hd'.
      apply list_elem_of_lookup in Hd' as [j Hj].
      rewrite lookup_zip_with in Hj.
      destruct (seq 0 (length demo) !! j) as [j'|] eqn:Hseq; [|done].
      apply lookup_seq in Hseq as [-> Hj5]. simpl in Hj.
      destruct (demo !! j) as [dj|] eqn:Hdj; [|done]. simpl in Hj.
      injection Hj as <-. rewrite lookup_insert_eq in Hm. injection Hm as Hm.
      assert (j = i) as -> by (apply Hinj; [exact Hj5|done|done]).
      rewrite Hd in Hdj. by injection Hdj as ->.
  - apply insert_non_empty.
Qed.

End SeedRoundTrip.

(** ** Categories, whatever the order and the types *)

Lemma string_lt_asym (a b : string) : string_lt a b -> string_lt b a -> a = b.
Proof.
  intros Hab Hba. destruct (string_lt_irrefl a). by eapply string_lt_trans.
Qed.

(** [sorted] gives the same list for two listings of the same texts. *)
Lemma sorted_texts_Permutation (l1 l2 : list string) :
  NoDup l1 -> l1 ≡ₚ l2 -> sorted (VStr <$> l1) = sorted (VStr <$> l2).
Proof.
  intros Hnd Hp. assert (NoDup l2) as Hnd2 by (by rewrite <- Hp).
  destruct (sorted_texts l1 Hnd) as (s1 & -> & Hp1 & Hs1).
  destruct (sorted_texts l2 Hnd2) as (s2 & -> & Hp2 & Hs2).
  do 2 f_equal. apply (StronglySorted_unique_strong string_lt); [|done..|].
  - intros x y _ _. apply string_lt_asym.
  - by rewrite Hp1, Hp2.
Qed.

Lemma distinct_Permutation (coll1 coll2 : list pydict) (field : string) :
  coll1 ≡ₚ coll2 -> distinct coll1 field ≡ₚ distinct coll2 field.
Proof.
  intros Hp. apply NoDup_Permutation; [apply NoDup_remove_dups..|].
  intros v. rewrite !elem_of_distinct. by setoid_rewrite Hp.
Qed.

(** The categories do not depend on the order in which the store holds or
    returns the products: two stores with the same products, all of text
    category, get the same answer. *)
Theorem list_categories_order_independent (h1 h2 : database) :
  db_getitem h1 "product" ≡ₚ db_getitem h2 "product" ->
  Forall text_category (db_getitem h1 "product") ->
  list_categories (Some h1) = list_categories (Some h2).
Proof.
  intros Hp Htext. unfold list_categories.
  set (kept1 := filter (fun c => truthy c = true) (distinct (db_getitem h1 "product") "category")).
  set (kept2 := filter (fun c => truthy c = true) (distinct (db_getitem h2 "product") "category")).
  assert (kept1 ≡ₚ kept2) as Hkept.
  { unfold kept1, kept2. by rewrite (distinct_Permutation _ _ _ Hp). }
  assert (NoDup kept1) as Hnd by apply NoDup_filter, NoDup_remove_dups.
  assert (Forall (fun v => exists c, v = VStr c) kept1) as Htexts1.
  { apply Forall_forall. intros v [_ (d & Hd & Hv)%elem_of_distinct]%list_elem_of_filter.
    rewrite Forall_forall in Htext. by apply (Htext d Hd). }
  assert (Forall (fun v => exists c, v = VStr c) kept2) as Htexts2.
  { by rewrite <- Hkept. }
  rewrite (texts_fmap kept1 Htexts1), (texts_fmap kept2 Htexts2).
  apply sorted_texts_Permutation.
  - rewrite (texts_fmap kept1 Htexts1) in Hnd. by apply NoDup_fmap_1 in Hnd.
  - by rewrite Hkept.
Qed.

Lemma py_lt_Ok (a b : pyval) (x : bool) :
  py_lt a b = Ok x -> kind_of a = kind_of b.
Proof. destruct a, b; simpl; try done. Qed.

Lemma py_lt_Raise (a b : pyval) (e : exn) :
  py_lt a b = Raise e -> exists msg, e = Error TypeError msg.
Proof. destruct a, b; simpl; intros [= <-]; eauto. Qed.

Lemma insert_sorted_Ok (x : pyval) (l l' : list pyval) :
  insert_sorted x l = Ok l' ->
  l' ≡ₚ x :: l /\ (forall y, head l = Some y -> kind_of y = kind_of x).
Proof.
  revert l'. induction l as [|y l IH]; intros l' Hins; simpl in Hins.
  - injection Hins as <-. by split.
  - apply bind_Ok in Hins as (below & Hlt & Hins).
    split; [|intros ? [= <-]; by eapply py_lt_Ok].
    destruct below.
    + apply bind_Ok in Hins as (r & Hr & [= <-]).
      destruct (IH r Hr) as [Hp _]. rewrite Hp. apply Permutation_swap.
    + by injection Hins as <-.
Qed.

Lemma insert_sorted_Raise (x : pyval) (l : list pyval) (e : exn) :
  insert_sorted x l = Raise e -> exists msg, e = Error TypeError msg.
Proof.
  induction l as [|y l IH]; simpl; [done|].
  destruct (py_lt y x) as [[]|e'] eqn:Hlt; simpl.
  - destruct (insert_sorted x l) as [r|e']; simpl; [done|].
    intros [= <-]. by apply IH.
  - done.
  - intros [= <-]. by eapply py_lt_Raise.
Qed.

(** When [sorted] returns, its result is a rearrangement of its argument
    and all the elements are of one kind. *)
Lemma sorted_Ok (l l' : list pyval) :
  sorted l = Ok l' ->
  l' ≡ₚ l /\ (forall a b, a ∈ l -> b ∈ l -> kind_of a = kind_of b).
Proof.
  revert l'. induction l as [|x l IH]; intros l' Hs; simpl in Hs.
  - injection Hs as <-. split; [done|]. intros a b Ha. by apply elem_of_nil in Ha.
  - apply bind_Ok in Hs as (r & Hr & Hins).
    destruct (IH r Hr) as [Hp Hkind].
    apply insert_sorted_Ok in Hins as [Hp' Hhead].
    split; [by rewrite Hp', Hp|].
    assert (forall a, a ∈ x :: l -> kind_of a = kind_of x) as Hx.
    { intros a [->|Ha]%elem_of_cons; [done|].
      destruct r as [|y r]; [rewrite <- Hp in Ha; by apply elem_of_nil in Ha|].
      rewrite <- (Hhead y eq_refl). apply Hkind; [done|].
      rewrite <- Hp. by left. }
    intros a b Ha Hb. by rewrite (Hx a Ha), (Hx b Hb).
Qed.

Lemma sorted_Raise (l : list pyval) (e : exn) :
  sorted l = Raise e -> exists msg, e = Error TypeError msg.
Proof.
  induction l as [|x l IH]; simpl; [done|].
  destruct (sorted l) as [r|e']; simpl.
  - apply insert_sorted_Raise.
  - intros [= <-]. by apply IH.
Qed.

(** The handler does not check the type of the categories: as soon as two
    stored products have categories of different kinds (a text and a
    number, say) that are not falsy, [sorted] raises [TypeError] and the
    request fails with status 500. *)
Theorem list_categories_mixed_kinds (h : database) (d1 d2 : pydict) (v1 v2 : pyval) :
  d1 ∈ db_getitem h "product" -> d2 ∈ db_getitem h "product" ->
  d1 !! "category" = Some v1 -> d2 !! "category" = Some v2 ->
  truthy v1 = true -> truthy v2 = true ->
  kind_of v1 <> kind_of v2 ->
  exists msg,
    list_categories (Some h) = Raise (Error TypeError msg) /\
    status 200 (list_categories (Some h)) = 500%Z.
Proof.
  intros Hd1 Hd2 Hv1 Hv2 Ht1 Ht2 Hkind. unfold list_categories.
  set (kept := filter (fun c => truthy c = true) (distinct (db_getitem h "product") "category")).
  assert (v1 ∈ kept /\ v2 ∈ kept) as [Hk1 Hk2].
  { unfold kept. rewrite !list_elem_of_filter, !elem_of_distinct. eauto 10. }
  destruct (sorted kept) as [l'|e] eqn:Hs.
  - apply sorted_Ok in Hs as [_ Hsame]. destruct Hkind. by apply Hsame.
  - apply sorted_Raise in Hs as [msg ->]. by exists msg.
Qed.

(** ** The diagnostic handler *)

Lemma str_prefix_len (n : nat) (s : string) : str_len (str_prefix n s) <= n.
Proof.
  revert n. induction s as [|c s IH]; intros n; simpl; [lia|].
  destruct (is_continuation c) eqn:Hc; simpl.
  - rewrite Hc. apply IH.
  - destruct n as [|n]; simpl; [lia|]. rewrite Hc. specialize (IH n). lia.
Qed.

Lemma str_prefix_prefix (n : nat) (s : string) :
  exists rest, s = str_prefix n s +:+ rest.
Proof.
  revert n. induction s as [|c s IH]; intros n; simpl; [by exists ""|].
  destruct (is_continuation c).
  - destruct (IH n) as [rest Hrest]. exists rest. exact (f_equal (String c) Hrest).
  - destruct n as [|n]; [by eexists|].
    destruct (IH n) as [rest Hrest]. exists rest. exact (f_equal (String c) Hrest).
Qed.

(** [GET /test] reports ["Connected"] exactly when the store handle is set
    and the store answers the listing; it then shows at most ten
    collection names, the first ones of the store's answer.  In every other
    case it reports ["Not Connected"] and no collection.  The response
    always has the same six keys. *)
Theorem test_database_connection (getenv : string -> option string)
    (db : option database) (listing : result (list string)) :
  dom (test_database getenv db listing) =
    {[ "backend"; "database"; "database_url"; "database_name";
       "connection_status"; "collections" ]} /\
  (test_database getenv db listing !! "connection_status" = Some (DStr "Connected") <->
   is_Some db /\ exists names, listing = Ok names) /\
  exists shown : list string,
    test_database getenv db listing !! "collections" = Some (DNames shown) /\
    length shown <= 10 /\
    match db, listing with
    | Some _, Ok names =>
        shown `prefix_of` names /\
        test_database getenv db listing !! "database" =
          Some (DStr "✅ Connected & Working")
    | _, _ =>
        shown = [] /\
        test_database getenv db listing !! "connection_status" =
          Some (DStr "Not Connected")
    end.
Proof.
  unfold test_database.
  destruct db as [h|], listing as [names|e]; cbv zeta iota beta;
    (split; [rewrite ?dom_insert_L; set_solver|]).
  - split.
    + rewrite lookup_insert_eq. split; [eauto|done].
    + exists (take 10 names). rewrite lookup_insert_ne, lookup_insert_ne by done.
      rewrite lookup_insert_eq. split; [done|].
      split; [rewrite length_take; lia|]. split; [apply prefix_take|].
      by rewrite lookup_insert_ne, lookup_insert_eq.
  - split.
    + rewrite lookup_insert_ne by done. split; [done|].
      by intros [_ [names [=]]].
    + exists []. rewrite lookup_insert_ne by done. split; [done|].
      split; [simpl; lia|]. split; [done|]. by rewrite lookup_insert_ne.
  - split.
    + rewrite lookup_insert_ne by done. split; [done|]. by intros [[? [=]] _].
    + exists []. rewrite lookup_insert_ne by done. split; [done|].
      split; [simpl; lia|]. split; [done|]. by rewrite lookup_insert_ne.
  - split.
    + rewrite lookup_insert_ne by done. split; [done|]. by intros [[? [=]] _].
    + exists []. rewrite lookup_insert_ne by done. split; [done|].
      split; [simpl; lia|]. split; [done|]. by rewrite lookup_insert_ne.
Qed.

(** When the store handle is set but the listing fails, [GET /test] shows
    the start of the exception's text after a fixed label: at most fifty
    characters of it, never more.  The settings of the environment are
    reported all the same. *)
Theorem test_database_listing_error (getenv : string -> option string)
    (h : database) (e : exn) :
  exists shown : string,
    test_database getenv (Some h) (Raise e) !! "database" =
      Some (DStr ("⚠️  Connected but Error: " +:+ shown)) /\
    str_len shown <= 50 /\
    (exists rest, exn_str e = shown +:+ rest) /\
    test_database getenv (Some h) (Raise e) !! "database_url" =
      Some (DStr (if env_truthy (getenv "DATABASE_URL") then "✅ Set" else "❌ Not Set")) /\
    test_database getenv (Some h) (Raise e) !! "database_name" =
      Some (DStr (if env_truthy (getenv "DATABASE_NAME") then "✅ Set" else "❌ Not Set")).
Proof.
  exists (str_prefix 50 (exn_str e)). unfold test_database. cbv zeta iota beta.
  split; [by rewrite lookup_insert_eq|].
  split; [apply str_prefix_len|]. split; [apply str_prefix_prefix|].
  split.
  - by rewrite lookup_insert_ne, lookup_insert_ne, lookup_insert_eq.
  - by rewrite lookup_insert_ne, lookup_insert_eq.
Qed.

(** * The further properties on sample data *)

Example test_database_sample :
  test_database sample_env (Some sample_store) (Ok ["product"]) =
    {[ "backend" := DStr "✅ Running";
       "database" := DStr "✅ Connected & Working";
       "database_url" := DStr "✅ Set";
       "database_name" := DStr "❌ Not Set";
       "connection_status" := DStr "Connected";
       "collections" := DNames ["product"] ]}.
Proof. compute_done. Qed.

Example test_database_without_store :
  test_database sample_env None (Ok ["product"]) =
    {[ "backend" := DStr "✅ Running";
       "database" := DStr "⚠️  Available but not initialized";
       "database_url" := DNone;
       "database_name" := DNone;
       "connection_status" := DStr "Not Connected";
       "collections" := DNames [] ]}.
Proof. compute_done. Qed.

(** Characters, not bytes, are counted: the accented letter takes two
    bytes and one place. *)
Example str_prefix_sample : str_prefix 3 "café au lait" = "caf" /\ str_prefix 4 "café au lait" = "café".
Proof. split; reflexivity. Qed.


Lemma serialize_doc_keys_witness :
  tee <> ∅ /\
  exists d' : pydict,
    serialize_doc float_repr_sample (Some tee) = Some d' /\
    dom d' = if decide (is_Some (tee !! "_id"))
             then {[ "id" ]} ∪ (dom tee ∖ {[ "_id" ]})
             else dom tee.
Proof.
  split; [exact tee_non_empty|].
  exact (serialize_doc_keys float_repr_sample tee tee_non_empty).
Defined.

Lemma list_products_serialized_witness :
  list_products float_repr_sample None (Some sample_store) =
    Ok [serialize_doc float_repr_sample (Some tee)] /\
  Forall (fun o => exists d' : pydict,
            o = Some d' /\ d' !! "_id" = None /\
            (forall k v, d' !! k = Some v -> is_ObjectId v = false))
    [serialize_doc float_repr_sample (Some tee)].
Proof.
  assert (list_products float_repr_sample None (Some sample_store) =
            Ok [serialize_doc float_repr_sample (Some tee)]) as H by compute_done.
  split; [exact H|].
  exact (list_products_serialized float_repr_sample None (Some sample_store) _ H).
Defined.

Lemma seed_then_list_categories_witness :
  db_getitem ∅ "product" = [] /\
  (forall j k, j < k -> k < 5 -> sample_id j <> sample_id k) /\
  exists h' : database,
    (seed_products sample_id (Some ∅)).2 = Some h' /\
    list_categories (Some h') =
      Ok [VStr "Bottoms"; VStr "Hoodies"; VStr "Outerwear"; VStr "Tops"].
Proof.
  split; [reflexivity|]. split; [exact sample_id_distinct|].
  exact (seed_then_list_categories sample_id ∅ eq_refl sample_id_distinct).
Defined.

Lemma seed_then_get_product_witness :
  db_getitem ∅ "product" = [] /\
  (forall j k, j < k -> k < 5 -> sample_id j <> sample_id k) /\
  length (oid_binary (sample_id 2)) = 12 /\
  exists d : pydict,
    demo !! 2 = Some d /\
    d !! "title" = Some (VStr "Slim Chinos") /\
    exists h' : database,
      (seed_products sample_id (Some ∅)).2 = Some h' /\
      get_product float_repr_sample (hexlify (oid_binary (sample_id 2))) (Some h') =
        Ok (Some (<["id" := VStr (hexlify (oid_binary (sample_id 2)))]> d)).
Proof.
  split; [reflexivity|]. split; [exact sample_id_distinct|]. split; [reflexivity|].
  destruct (demo !! 2) as [d|] eqn:Hd; [|discriminate Hd].
  exists d. split; [reflexivity|].
  split; [injection Hd as <-; reflexivity|].
  exact (seed_then_get_product float_repr_sample sample_id ∅ 2 d eq_refl
           sample_id_distinct eq_refl Hd).
Defined.

Lemma list_categories_order_independent_witness :
  db_getitem demo_store "product" ≡ₚ db_getitem demo_store_reversed "product" /\
  Forall text_category (db_getitem demo_store "product") /\
  list_categories (Some demo_store) = list_categories (Some demo_store_reversed).
Proof.
  assert (db_getitem demo_store "product" ≡ₚ db_getitem demo_store_reversed "product")
    as Hp.
  { change (demo ≡ₚ reverse demo). by rewrite reverse_Permutation. }
  split; [exact Hp|]. split; [exact demo_text_categories|].
  exact (list_categories_order_independent demo_store demo_store_reversed Hp
           demo_text_categories).
Defined.

Lemma list_categories_mixed_kinds_witness :
  tee ∈ db_getitem mixed_store "product" /\
  cap ∈ db_getitem mixed_store "product" /\
  tee !! "category" = Some (VStr "Tops") /\
  cap !! "category" = Some (VInt 7) /\
  truthy (VStr "Tops") = true /\ truthy (VInt 7) = true /\
  kind_of (VStr "Tops") <> kind_of (VInt 7) /\
  exists msg,
    list_categories (Some mixed_store) = Raise (Error TypeError msg) /\
    status 200 (list_categories (Some mixed_store)) = 500%Z.
Proof.
  assert (tee ∈ db_getitem mixed_store "product") as H1 by (left).
  assert (cap ∈ db_getitem mixed_store "product") as H2 by (right; left).
  assert (kind_of (VStr "Tops") <> kind_of (VInt 7)) as H3 by discriminate.
  split; [exact H1|]. split; [exact H2|]. do 4 (split; [reflexivity|]).
  split; [exact H3|].
  exact (list_categories_mixed_kinds mixed_store tee cap _ _ H1 H2 eq_refl eq_refl
           eq_refl eq_refl H3).
Defined.

(** ** Categories and the listing by category *)

(** Every text that [GET /api/categories] returns is a category by which
    [GET /api/products] finds at least one product. *)
Theorem listed_category_has_products (float_repr : Q -> string) (h : database)
    (cats : list pyval) (c : string) :
  list_categories (Some h) = Ok cats ->
  VStr c ∈ cats ->
  exists r : list (option pydict),
    list_products float_repr (Some c) (Some h) = Ok r /\ r <> [].
Proof.
  unfold list_categories. intros [Hp _]%sorted_Ok Hc.
  rewrite Hp in Hc. apply list_elem_of_filter in Hc as [Htruthy Hc].
  apply elem_of_distinct in Hc as (d & Hd & Hcat).
  unfold list_products. rewrite Htruthy. simpl. rewrite find_equal.
  eexists. split; [done|].
  assert (d ∈ filter (fun d : pydict => d !! "category" = Some (VStr c))
                (db_getitem h "product")) as Hin by (by apply list_elem_of_filter).
  intros Hnil. apply fmap_nil_inv in Hnil. rewrite Hnil in Hin.
  by apply elem_of_nil in Hin.
Qed.

Lemma listed_category_has_products_witness :
  list_categories (Some demo_store) =
    Ok [VStr "Bottoms"; VStr "Hoodies"; VStr "Outerwear"; VStr "Tops"] /\
  VStr "Hoodies" ∈ [VStr "Bottoms"; VStr "Hoodies"; VStr "Outerwear"; VStr "Tops"] /\
  exists r : list (option pydict),
    list_products float_repr_sample (Some "Hoodies") (Some demo_store) = Ok r /\ r <> [].
Proof.
  assert (list_categories (Some demo_store) =
            Ok [VStr "Bottoms"; VStr "Hoodies"; VStr "Outerwear"; VStr "Tops"]) as H1
    by compute_done.
  assert (VStr "Hoodies" ∈ [VStr "Bottoms"; VStr "Hoodies"; VStr "Outerwear"; VStr "Tops"])
    as H2 by (right; left).
  split; [exact H1|]. split; [exact H2|].
  exact (listed_category_has_products float_repr_sample demo_store _ "Hoodies" H1 H2).
Defined.
